(** * pkg/repos/runtimes/golang: the Go toolchain runtime of gptscript

    A shallow embedding of [golang.go]: release resolution against the
    embedded digest manifest and against GitHub, the checksum fetcher, the
    verified binary download and the content-addressed toolchain cache.

    Go strings are byte strings and are modelled by [string]; the network, the
    file system and the collaborators that live outside the package are an
    explicit world threaded through a state monad.  [Setup],
    [BuildCredentialHelper] and [runBuild] run the build command on top of
    it, in a second monad that also records the commands run. *)

From Stdlib Require Import ZArith NArith Ascii String List Lia Bool.
From stdpp Require Import gmap strings list.

Local Open Scope string_scope.
Local Open Scope list_scope.
Local Open Scope nat_scope.

(* ===================================================================== *)
(** ** Package [strings] of the Go standard library *)
(* ===================================================================== *)

(** [strings.HasPrefix(s, prefix)]: [len(s) >= len(prefix) &&
    s[:len(prefix)] == prefix]. *)
Definition strings_HasPrefix (s pre : string) : bool := String.prefix pre s.

(** [s[n:]] for [n <= len(s)]. *)
Fixpoint string_drop (n : nat) (s : string) : string :=
  match n, s with
  | O, _ => s
  | S k, String _ s' => string_drop k s'
  | S _, EmptyString => EmptyString
  end.

(** [s[:n]] for [n <= len(s)]. *)
Fixpoint string_take (n : nat) (s : string) : string :=
  match n, s with
  | O, _ => EmptyString
  | S k, String c s' => String c (string_take k s')
  | S _, EmptyString => EmptyString
  end.

(** [strings.HasSuffix(s, suffix)]: [len(s) >= len(suffix) &&
    s[len(s)-len(suffix):] == suffix]. *)
Definition strings_HasSuffix (s suf : string) : bool :=
  (String.length suf <=? String.length s)
  && String.eqb (string_drop (String.length s - String.length suf) s) suf.

(** [strings.TrimPrefix]: [s[len(prefix):]] when [s] starts with [prefix]. *)
Definition strings_TrimPrefix (s pre : string) : string :=
  if strings_HasPrefix s pre then string_drop (String.length pre) s else s.

(** [strings.TrimSuffix]: [s[:len(s)-len(suffix)]] when [s] ends with it. *)
Definition strings_TrimSuffix (s suf : string) : string :=
  if strings_HasSuffix s suf
  then string_take (String.length s - String.length suf) s
  else s.

(** Prepends a byte to the piece under construction (the head of the list). *)
Definition push_byte (c : ascii) (pieces : list string) : list string :=
  match pieces with
  | p :: ps => String c p :: ps
  | [] => [String c EmptyString]
  end.

(** The loop of [strings.Split(s, sep)] for a non-empty [sep]: the leftmost
    occurrence of [sep] ends the current piece and the scan resumes behind it;
    [skip] counts the bytes of a matched separator still to be passed over. *)
Fixpoint split_from (sep : string) (skip : nat) (s : string) : list string :=
  match s with
  | EmptyString => [EmptyString]
  | String c s' =>
      match skip with
      | S k => split_from sep k s'
      | O =>
          if strings_HasPrefix s sep
          then EmptyString :: split_from sep (String.length sep - 1) s'
          else push_byte c (split_from sep 0 s')
      end
  end.

(** [strings.Split(s, sep)] with [sep] non-empty (the package only splits on
    the literals ["/"] and two spaces); an empty separator, which Go explodes
    into UTF-8 sequences, is not used and yields the unsplit string here. *)
Definition strings_Split (s sep : string) : list string :=
  match sep with
  | EmptyString => [s]
  | _ => split_from sep 0 s
  end.

(** Width in bytes of the white-space rune encoded at the head of [s], or
    [0] when [s] does not start with one.  [unicode.IsSpace] holds of
    U+0009..U+000D, U+0020, U+0085, U+00A0, U+1680, U+2000..U+200A, U+2028,
    U+2029, U+202F, U+205F and U+3000; they are matched here by their UTF-8
    encodings (a lead byte never occurs inside another valid sequence, so a
    match at a position is a rune of the sequential decoding). *)
Definition space_width (s : string) : nat :=
  match s with
  | String c r =>
      let b := nat_of_ascii c in
      if ((9 <=? b) && (b <=? 13)) || (b =? 32) then 1
      else match r with
      | String c1 r1 =>
          let b1 := nat_of_ascii c1 in
          if (b =? 194) && ((b1 =? 133) || (b1 =? 160)) then 2
          else match r1 with
          | String c2 _ =>
              let b2 := nat_of_ascii c2 in
              if (b =? 225) && (b1 =? 154) && (b2 =? 128) then 3
              else if (b =? 226) && (b1 =? 128)
                      && (((128 <=? b2) && (b2 <=? 138))
                          || (b2 =? 168) || (b2 =? 169) || (b2 =? 175)) then 3
              else if (b =? 226) && (b1 =? 129) && (b2 =? 159) then 3
              else if (b =? 227) && (b1 =? 128) && (b2 =? 128) then 3
              else 0
          | EmptyString => 0
          end
      | EmptyString => 0
      end
  | EmptyString => 0
  end.

(** The loop of [strings.Fields]: maximal runs of non-space bytes.  [skip]
    counts the remaining bytes of a multi-byte white-space rune; [open] tells
    whether a field is under construction at the head of the result. *)
Fixpoint fields_from (skip : nat) (s : string) : bool * list string :=
  match s with
  | EmptyString => (false, [])
  | String c s' =>
      match skip with
      | S k => fields_from k s'
      | O =>
          match space_width s with
          | O =>
              let '(open, fs) := fields_from 0 s' in
              (true, if open then push_byte c fs else String c EmptyString :: fs)
          | S k => (false, snd (fields_from k s'))
          end
      end
  end.

(** [strings.Fields(s)]. *)
Definition strings_Fields (s : string) : list string := snd (fields_from 0 s).

(** Removes the white-space runes at the head of [s]; [fuel] bounds the
    number of runes (one per byte at most). *)
Fixpoint trim_left (fuel : nat) (s : string) : string :=
  match fuel with
  | O => s
  | S f =>
      match space_width s with
      | O => s
      | S k => trim_left f (string_drop (S k) s)
      end
  end.

Definition string_rev (s : string) : string :=
  string_of_list_ascii (rev (list_ascii_of_string s)).

(** Width of the white-space rune that ends the string whose bytes, last
    first, are [r] ([utf8.DecodeLastRuneInString] steps back to the nearest
    lead byte, at most three bytes away). *)
Definition space_width_last (r : string) : nat :=
  match r with
  | String c2 r1 =>
      if space_width (String c2 EmptyString) =? 1 then 1
      else match r1 with
      | String c1 r2 =>
          if space_width (String c1 (String c2 EmptyString)) =? 2 then 2
          else match r2 with
          | String c0 _ =>
              if space_width (String c0 (String c1 (String c2 EmptyString))) =? 3
              then 3 else 0
          | EmptyString => 0
          end
      | EmptyString => 0
      end
  | EmptyString => 0
  end.

(** Removes the white-space runes at the end, on the reversed string. *)
Fixpoint trim_right_rev (fuel : nat) (r : string) : string :=
  match fuel with
  | O => r
  | S f =>
      match space_width_last r with
      | O => r
      | S k => trim_right_rev f (string_drop (S k) r)
      end
  end.

(** [strings.TrimSpace(s)]: leading, then trailing white space removed. *)
Definition strings_TrimSpace (s : string) : string :=
  let l := trim_left (String.length s) s in
  string_rev (trim_right_rev (String.length l) (string_rev l)).

(** [strings.Contains(s, substr)]. *)
Fixpoint strings_Contains (s sub : string) : bool :=
  strings_HasPrefix s sub
  || match s with
     | EmptyString => false
     | String _ s' => strings_Contains s' sub
     end.

(* ===================================================================== *)
(** ** [bufio.Scanner] with the default [ScanLines] split function *)
(* ===================================================================== *)

Definition LF : ascii := "010"%char.
Definition CR : ascii := "013"%char.

(** The newline-delimited pieces of the input; a final unterminated line is
    a piece, an empty remainder at the end of the input is none. *)
Fixpoint raw_lines (s : string) : list string :=
  match s with
  | EmptyString => []
  | String c s' =>
      if Ascii.eqb c LF then EmptyString :: raw_lines s'
      else push_byte c (raw_lines s')
  end.

(** [dropCR]: drops one trailing carriage return. *)
Fixpoint dropCR (s : string) : string :=
  match s with
  | EmptyString => EmptyString
  | String c EmptyString => if Ascii.eqb c CR then EmptyString else s
  | String c s' => String c (dropCR s')
  end.

(** [bufio.MaxScanTokenSize]: the scanner's buffer holds at most this many
    bytes; a line that does not fit makes [Scan] return false (the error,
    [ErrTooLong], is not inspected by the loops of this package). *)
Definition MaxScanTokenSize : N := 65536.

Definition fits_buffer (line : string) : bool :=
  (N.of_nat (String.length line) <? MaxScanTokenSize)%N.

(** The tokens [scanner.Text()] takes over the successive [scanner.Scan()]
    calls that return true. *)
Fixpoint scan_tokens (pieces : list string) : list string :=
  match pieces with
  | [] => []
  | p :: ps => if fits_buffer p then dropCR p :: scan_tokens ps else []
  end.

Definition scan_lines (input : string) : list string :=
  scan_tokens (raw_lines input).

(* ===================================================================== *)
(** ** [encoding/hex] and [crypto/sha256] *)
(* ===================================================================== *)

Local Open Scope Z_scope.

Definition hex_digit (n : Z) : ascii :=
  ascii_of_N (Z.to_N (if n <? 10 then 48 + n else 87 + n)).

(** [hex.EncodeToString]: two lower-case digits per byte. *)
Fixpoint hex_EncodeToString (bytes : list Z) : string :=
  match bytes with
  | [] => EmptyString
  | b :: bs =>
      String (hex_digit (Z.shiftr b 4))
        (String (hex_digit (Z.land b 15)) (hex_EncodeToString bs))
  end.

(** 32-bit words are integers in [[0, 2^32)]; additions wrap around. *)
Definition w32 (x : Z) : Z := Z.land x 4294967295.
Definition add32 (x y : Z) : Z := w32 (x + y).
Definition rotr (n x : Z) : Z :=
  Z.lor (Z.shiftr x n) (w32 (Z.shiftl x (32 - n))).
Definition not32 (x : Z) : Z := Z.lxor x 4294967295.

Definition Ch (x y z : Z) : Z := Z.lxor (Z.land x y) (Z.land (not32 x) z).
Definition Maj (x y z : Z) : Z :=
  Z.lxor (Z.lxor (Z.land x y) (Z.land x z)) (Z.land y z).
Definition Sigma0 (x : Z) : Z := Z.lxor (Z.lxor (rotr 2 x) (rotr 13 x)) (rotr 22 x).
Definition Sigma1 (x : Z) : Z := Z.lxor (Z.lxor (rotr 6 x) (rotr 11 x)) (rotr 25 x).
Definition sigma0 (x : Z) : Z := Z.lxor (Z.lxor (rotr 7 x) (rotr 18 x)) (Z.shiftr x 3).
Definition sigma1 (x : Z) : Z := Z.lxor (Z.lxor (rotr 17 x) (rotr 19 x)) (Z.shiftr x 10).

(** The primes in increasing order: [k] is kept when no prime found so far
    divides it. *)
Fixpoint primes_upto (fuel : nat) (k : Z) (found : list Z) : list Z :=
  match fuel with
  | O => found
  | S f =>
      if forallb (fun p => negb (k mod p =? 0)) found
      then primes_upto f (k + 1) (found ++ [k])
      else primes_upto f (k + 1) found
  end.

(** The integer cube root, bit by bit from [2^bits] down. *)
Fixpoint cube_root (bits : nat) (n root : Z) : Z :=
  match bits with
  | O => root
  | S b =>
      let next := root + Z.shiftl 1 (Z.of_nat b) in
      cube_root b n (if next * next * next <=? n then next else root)
  end.

(** The round constants: the first 32 bits of the fractional parts of the
    cube roots of the first 64 primes. *)
Definition sha256_K : list Z :=
  Eval vm_compute in
    map (fun p => w32 (cube_root 40 (Z.shiftl p 96) 0)) (primes_upto 310 2 []).

(** The initial hash value: the same of the square roots of the first 8
    primes. *)
Definition sha256_init : list Z :=
  Eval vm_compute in
    map (fun p => w32 (Z.sqrt (Z.shiftl p 64))) (primes_upto 18 2 []).

(** Big-endian bytes of a word, and back. *)
Definition be_bytes (width : nat) (x : Z) : list Z :=
  map (fun i => Z.land (Z.shiftr x (8 * Z.of_nat i)) 255) (rev (seq 0 width)).

Fixpoint be_words (bytes : list Z) : list Z :=
  match bytes with
  | a :: b :: c :: d :: rest =>
      Z.lor (Z.lor (Z.shiftl a 24) (Z.shiftl b 16)) (Z.lor (Z.shiftl c 8) d)
      :: be_words rest
  | _ => []
  end.

(** The message followed by the bit [1], zeros, and its length in bits on 64
    bits, so that the whole is a multiple of 64 bytes. *)
Definition sha256_pad (msg : list Z) : list Z :=
  let n := Z.of_nat (length msg) in
  let zeros := Z.to_nat ((55 - n) mod 64) in
  msg ++ [128] ++ repeat 0 zeros ++ be_bytes 8 (8 * n).

(** The message schedule kept newest first: [W_t] from [W_(t-2)], [W_(t-7)],
    [W_(t-15)] and [W_(t-16)]. *)
Fixpoint sha256_schedule (n : nat) (ws : list Z) : list Z :=
  match n with
  | O => ws
  | S k =>
      let w := add32 (add32 (sigma1 (nth 1 ws 0)) (nth 6 ws 0))
                     (add32 (sigma0 (nth 14 ws 0)) (nth 15 ws 0)) in
      sha256_schedule k (w :: ws)
  end.

Definition sha256_round (st : list Z) (kw : Z * Z) : list Z :=
  match st with
  | [a; b; c; d; e; f; g; h] =>
      let t1 := add32 (add32 (add32 h (Sigma1 e)) (add32 (Ch e f g) (fst kw))) (snd kw) in
      let t2 := add32 (Sigma0 a) (Maj a b c) in
      [add32 t1 t2; a; b; c; add32 d t1; e; f; g]
  | _ => st
  end.

Definition sha256_block (h : list Z) (block : list Z) : list Z :=
  let ws := rev (sha256_schedule 48 (rev (be_words block))) in
  let st := fold_left sha256_round (combine sha256_K ws) h in
  map (fun p => add32 (fst p) (snd p)) (combine h st).

Fixpoint sha256_blocks (fuel : nat) (h : list Z) (bytes : list Z) : list Z :=
  match fuel with
  | O => h
  | S f =>
      match bytes with
      | [] => h
      | _ => sha256_blocks f (sha256_block h (firstn 64 bytes)) (skipn 64 bytes)
      end
  end.

(** [sha256.Sum256]: the 32-byte digest of a byte sequence. *)
Definition sha256_Sum (msg : list Z) : list Z :=
  let padded := sha256_pad msg in
  concat (map (be_bytes 4) (sha256_blocks (length padded) sha256_init padded)).

Definition bytes_of_string (s : string) : list Z :=
  map (fun c => Z.of_N (N_of_ascii c)) (list_ascii_of_string s).

(** [hex.EncodeToString(digest.Sum(nil))] after the bytes of [s] were written
    to a fresh [sha256.New()]. *)
Definition sha256_hex (s : string) : string :=
  hex_EncodeToString (sha256_Sum (bytes_of_string s)).

Local Close Scope Z_scope.

(* ===================================================================== *)
(** ** Errors, results and panics *)
(* ===================================================================== *)

(** Conditions the operating system may impose on a call, whatever the
    state of the modelled files. *)
Inductive errno := EACCES | EIO | ENOSPC | EROFS | ENOTDIR | EISDIR | ENOTEMPTY.

(** The calls that leave the package: [os], [io] and [download.Extract]. *)
Inductive syscall :=
| OpStat (path : string)
| OpMkdirAll (path : string)
| OpCreate (path : string)
| OpWrite (path : string)
| OpClose (path : string)
| OpChmod (path : string)
| OpRename (oldpath newpath : string)
| OpRemoveAll (path : string)
| OpExtract (url sha dest : string).

(** [http.DefaultClient], and the client of [getLatestRelease] whose
    [CheckRedirect] returns [http.ErrUseLastResponse]. *)
Inductive client := DefaultClient | LastResponseClient.

Inductive event :=
| Sys (call : syscall)
| HttpGet (cl : client) (url : string).

(** Go [error] values, by origin. *)
Inductive error :=
| ErrNotExist (path : string)
    (* an error for which errors.Is(err, fs.ErrNotExist) holds *)
| SysError (call : syscall) (e : errno)
    (* any other failure of a call outside the package *)
| RequestError (url : string)
    (* http.NewRequestWithContext *)
| TransportError (url : string)
    (* the round trip failed *)
| BodyReadError
    (* reading a response body failed *)
| BadStatus (code : Z)
    (* fmt.Errorf("bad HTTP status code: %d", ...) *)
| ChecksumMismatch (got want : string)
    (* fmt.Errorf("checksum mismatch %s != %s", ...) *)
| ReleaseNotFound (id goos goarch : string)
    (* fmt.Errorf("failed to find %s release for os=%s arch=%s", ...) *)
| LocationError (loc : string).
    (* net/http: failed to parse the Location header of a redirect *)

(** A Go pair [(T, error)] of which exactly one component is meaningful. *)
Inductive result (A : Type) :=
| Ok (a : A)
| Err (e : error).
Arguments Ok {A} a.
Arguments Err {A} e.

(** Run-time panic of an index expression [a[index]] with [len(a) = len]. *)
Inductive panic := IndexOutOfRange (index len : nat).

(** What a call that may panic comes to. *)
Inductive outcome (A : Type) :=
| Return (r : result A)
| Panic (p : panic).
Arguments Return {A} r.
Arguments Panic {A} p.

#[global] Instance errno_eq_dec : EqDecision errno.
Proof. solve_decision. Defined.
#[global] Instance syscall_eq_dec : EqDecision syscall.
Proof. solve_decision. Defined.
#[global] Instance client_eq_dec : EqDecision client.
Proof. solve_decision. Defined.
#[global] Instance event_eq_dec : EqDecision event.
Proof. solve_decision. Defined.

(** The path a call is about. *)
Definition call_path (call : syscall) : string :=
  match call with
  | OpStat path | OpMkdirAll path | OpCreate path | OpWrite path
  | OpClose path | OpChmod path | OpRemoveAll path => path
  | OpRename oldpath _ => oldpath
  | OpExtract _ _ dest => dest
  end.

(** [errors.Is(err, fs.ErrNotExist)]. *)
Definition errors_Is_ErrNotExist (err : error) : bool :=
  match err with
  | ErrNotExist _ => true
  | _ => false
  end.

(* ===================================================================== *)
(** ** The world: files, network, and what is fixed at build time *)
(* ===================================================================== *)

(** What a directory of the cache holds: nothing yet, the remains of an
    extraction that failed, or the whole archive of [url] with digest [sha].
    A directory is one name of the file store and the payload stands for
    what is below it: renaming or removing the directory moves or removes
    that name. *)
Inductive payload :=
| Bare
| Partial
| Unpacked (url sha : string).

Inductive node :=
| Dir (p : payload)
| File (data : string) (mode : N).

(** The files by path, the calls made so far, oldest first, and the file
    stores that writes have produced so far, oldest first: what was to be
    seen on the disk in the course of a run. *)
Record world := World {
  fs : gmap string node;
  trace : list event;
  seen : list (gmap string node)
}.

(** An HTTP response body: the bytes it delivers, and whether the stream
    then fails instead of ending. *)
Record body := {
  bytes : string;
  broken : bool
}.

Record Response := {
  StatusCode : Z;
  Location : string;   (* resp.Header.Get("Location") *)
  Body : body
}.

Definition StatusOK : Z := 200.
Definition StatusFound : Z := 302.

(** [tag]: an element of GitHub's tag listing. *)
Record tag := {
  Name : string;
  Sha : string   (* Commit.Sha *)
}.

(** What is fixed when the program is built: the target platform, the
    embedded manifest [digests.txt], and the functions the package takes
    from elsewhere ([hash.ID] of pkg/hash, [filepath.Join],
    [json.NewDecoder(body).Decode] into a slice of tags). *)
Record config := {
  GOOS : string;
  GOARCH : string;
  releasesData : string;
  hash_ID : string -> string -> string;
  filepath_Join : list string -> string;
  json_Decode_tags : body -> option (list tag)
}.

(** What the surroundings decide during one call: which system calls fail
    and with which condition; which of the failing calls report a missing
    name (ENOENT), an error for which [errors.Is(err, fs.ErrNotExist)]
    holds; how many of the nearest parents a failing [os.MkdirAll] had not
    made yet; the file mode creation mask of the process; which URLs
    [net/url] cannot parse; and what the network answers ([http.DefaultClient]
    follows redirects, so its answer is the last one of the exchange). *)
Record outside := {
  fault : syscall -> option errno;
  enoent : syscall -> bool;
  stalled : syscall -> nat;
  umask : N;
  malformed : string -> bool;
  transport : client -> string -> option Response
}.

(** [types.Tool], reduced to the fields the package reads. *)
Record Repo := {
  VCS : string;
  Root : string;
  Revision : string
}.

Record ToolSource := {
  SourceRepo : option Repo   (* Source.Repo, a pointer *)
}.

Record Tool := {
  Source : ToolSource
}.

(** Modelled from the spec: [types.ToolSource.IsGit] is declared in pkg/types,
    not in this package; a source is git-style when it carries a repository
    reference whose version-control system is git. *)
Definition IsGit (s : ToolSource) : bool :=
  match SourceRepo s with
  | Some rp => String.eqb (VCS rp) "git"
  | None => false
  end.

(* ===================================================================== *)
(** ** The state monad of effectful code *)
(* ===================================================================== *)

Definition M (A : Type) : Type := world -> A * world.

#[global] Instance M_ret : MRet M := fun A a w => (a, w).
#[global] Instance M_bind : MBind M :=
  fun A B f m w => let '(a, w') := m w in f a w'.

Definition emit (e : event) : M unit :=
  fun w => (tt, World (fs w) (trace w ++ [e]) (seen w)).

Definition read_fs : M (gmap string node) :=
  fun w => (fs w, w).

Definition write_fs (f : gmap string node -> gmap string node) : M unit :=
  fun w => (tt, World (f (fs w)) (trace w) (seen w ++ [f (fs w)])).

(** [defer cleanup] in front of [body]: the clean-up runs when the body
    returns, whatever it returns, and what the clean-up returns is dropped. *)
Definition defer {A B : Type} (cleanup : M B) (body : M A) : M A :=
  a ← body; _ ← cleanup; mret a.

(* ===================================================================== *)
(** ** Packages [os], [io] and [net/http] on the world *)
(* ===================================================================== *)

(** The error of a call that the surroundings make fail: a missing name,
    or the condition. *)
Definition sys_error (o : outside) (call : syscall) : option error :=
  match fault o call with
  | Some e => Some (if enoent o call then ErrNotExist (call_path call)
                    else SysError call e)
  | None => None
  end.

(** [os.Stat(path)], the file information dropped.  Whether the path is
    missing is read from the files; [fault] stands for every other failure
    of the probe. *)
Definition os_Stat (o : outside) (path : string) : M (option error) :=
  _ ← emit (Sys (OpStat path));
  files ← read_fs;
  mret (match fault o (OpStat path) with
        | Some e => Some (SysError (OpStat path) e)
        | None =>
            match files !! path with
            | Some _ => None
            | None => Some (ErrNotExist path)
            end
        end).

(** [os.IsPathSeparator(ch)]: the slash, and on windows the backslash too. *)
Definition os_IsPathSeparator (c : config) (ch : ascii) : bool :=
  Ascii.eqb ch "/" || (String.eqb (GOOS c) "windows" && Ascii.eqb ch "\").

(** Whether a string holds a byte other than a separator. *)
Fixpoint has_name (c : config) (s : string) : bool :=
  match s with
  | EmptyString => false
  | String ch rest => negb (os_IsPathSeparator c ch) || has_name c rest
  end.

(** The parents of the path [walked ++ rest] that end within [rest], nearest
    first, in front of [found].  A parent is what stands before a separator,
    provided it ends in the byte of a name and a name follows; the root is
    none. *)
Fixpoint parents_from (c : config) (walked : string) (in_name : bool) (rest : string)
    (found : list string) : list string :=
  match rest with
  | EmptyString => found
  | String ch rest' =>
      let sep := os_IsPathSeparator c ch in
      parents_from c (walked ++ String ch "") (negb sep) rest'
        (if sep && in_name && has_name c rest' then walked :: found else found)
  end.

(** The directories above a path, nearest first: [/data/golang] and [/data]
    for [/data/golang/x].  On windows the volume name comes last; it is
    there on any disk, and the walk below ends at a name that exists. *)
Definition ancestors (c : config) (path : string) : list string :=
  parents_from c "" false path [].

(** The walk of [os.MkdirAll] up a chain of names, nearest first: a name
    that is a directory ends the walk, a name that is a file fails it
    (ENOTDIR), and a missing name is made, with mode 0755, once the names
    above it are there. *)
Fixpoint make_dirs (files : gmap string node) (chain : list string)
  : option (gmap string node) :=
  match chain with
  | [] => Some files
  | name :: above =>
      match files !! name with
      | Some (Dir _) => Some files
      | Some (File _ _) => None
      | None =>
          match make_dirs files above with
          | Some made => Some (<[name := Dir Bare]> made)
          | None => None
          end
      end
  end.

(** [os.MkdirAll(path, 0755)]: the path and the parents it lacks are made,
    and an existing directory is left as it is.  A call that the
    surroundings make fail has made some of the parents at most. *)
Definition os_MkdirAll (c : config) (o : outside) (path : string) : M (option error) :=
  let call := OpMkdirAll path in
  _ ← emit (Sys call);
  files ← read_fs;
  match sys_error o call with
  | Some err =>
      match make_dirs files (drop (stalled o call) (ancestors c path)) with
      | Some made => _ ← write_fs (fun _ => made); mret (Some err)
      | None => mret (Some err)
      end
  | None =>
      match make_dirs files (path :: ancestors c path) with
      | Some made => _ ← write_fs (fun _ => made); mret None
      | None => mret (Some (SysError call ENOTDIR))
      end
  end.

(** [os.Rename(oldpath, newpath)]: one atomic step; a directory replaces
    only an empty directory. *)
Definition os_Rename (o : outside) (oldpath newpath : string) : M (option error) :=
  let call := OpRename oldpath newpath in
  _ ← emit (Sys call);
  match sys_error o call with
  | Some err => mret (Some err)
  | None =>
      files ← read_fs;
      match files !! oldpath with
      | None => mret (Some (ErrNotExist oldpath))
      | Some n =>
          let move := _ ← write_fs (fun m => <[newpath := n]> (delete oldpath m));
                      mret None in
          match n, files !! newpath with
          | _, None => move
          | Dir _, Some (Dir Bare) => move
          | Dir _, Some (Dir _) => mret (Some (SysError call ENOTEMPTY))
          | Dir _, Some (File _ _) => mret (Some (SysError call ENOTDIR))
          | File _ _, Some (Dir _) => mret (Some (SysError call EISDIR))
          | File _ _, Some (File _ _) => move
          end
      end
  end.

(** [os.RemoveAll(path)]: when it succeeds the path and what it holds are
    gone, and a missing path is no error; when it fails the path stays. *)
Definition os_RemoveAll (o : outside) (path : string) : M (option error) :=
  let call := OpRemoveAll path in
  _ ← emit (Sys call);
  match sys_error o call with
  | Some err => mret (Some err)
  | None => _ ← write_fs (delete path); mret None
  end.

(** [os.Create(path)]: the file is truncated, or created with mode 0666
    less the bits of the umask. *)
Definition os_Create (o : outside) (path : string) : M (option error) :=
  _ ← emit (Sys (OpCreate path));
  match sys_error o (OpCreate path) with
  | Some err => mret (Some err)
  | None =>
      files ← read_fs;
      match files !! path with
      | Some (Dir _) => mret (Some (SysError (OpCreate path) EISDIR))
      | Some (File _ mode) => _ ← write_fs (insert path (File "" mode)); mret None
      | None => _ ← write_fs (insert path (File "" (N.ldiff 438 (umask o)))); mret None
      end
  end.

(** [io.Copy(io.MultiWriter(targetFile, digest), resp.Body)]: the bytes that
    reached the digest, and the error of the copy. *)
Definition io_Copy (o : outside) (path : string) (b : body) : M (string * option error) :=
  _ ← emit (Sys (OpWrite path));
  match sys_error o (OpWrite path) with
  | Some err => mret ("", Some err)
  | None =>
      _ ← write_fs (alter (fun n => match n with
                                    | File _ mode => File (bytes b) mode
                                    | Dir p => Dir p
                                    end) path);
      mret (bytes b, if broken b then Some BodyReadError else None)
  end.

(** [targetFile.Close()]. *)
Definition os_Close (o : outside) (path : string) : M (option error) :=
  _ ← emit (Sys (OpClose path));
  mret (sys_error o (OpClose path)).

(** [os.Chmod(path, mode)]. *)
Definition os_Chmod (o : outside) (path : string) (mode : N) : M (option error) :=
  _ ← emit (Sys (OpChmod path));
  match sys_error o (OpChmod path) with
  | Some err => mret (Some err)
  | None =>
      _ ← write_fs (alter (fun n => match n with
                                    | File data _ => File data mode
                                    | Dir p => Dir p
                                    end) path);
      mret None
  end.

(** Modelled from the spec: [download.Extract] of pkg/repos/download is not
    under src/.  It fetches the archive at [url], verifies it against [sha]
    and unpacks it into [dest]; a failure leaves [dest] partially filled. *)
Definition download_Extract (o : outside) (url sha dest : string) : M (option error) :=
  let call := OpExtract url sha dest in
  _ ← emit (Sys call);
  match sys_error o call with
  | Some err => _ ← write_fs (insert dest (Dir Partial)); mret (Some err)
  | None => _ ← write_fs (insert dest (Dir (Unpacked url sha))); mret None
  end.

(** [http.NewRequestWithContext(ctx, http.MethodGet, url, nil)]. *)
Definition http_NewRequest (o : outside) (url : string) : option error :=
  if malformed o url then Some (RequestError url) else None.

(** The status codes that [net/http] takes for a redirect of a GET. *)
Definition redirects (code : Z) : bool :=
  (code =? 301)%Z || (code =? 302)%Z || (code =? 303)%Z
  || (code =? 307)%Z || (code =? 308)%Z.

(** [client.Do(req)].  For a redirect that carries a Location, [net/http]
    parses the Location before it consults [CheckRedirect]: the client of
    [getLatestRelease] gets the redirect itself as the response only when
    its Location parses, and an error otherwise. *)
Definition client_Do (o : outside) (cl : client) (url : string) : M (result Response) :=
  _ ← emit (HttpGet cl url);
  mret (match transport o cl url with
        | None => Err (TransportError url)
        | Some resp =>
            match cl with
            | DefaultClient => Ok resp
            | LastResponseClient =>
                if redirects (StatusCode resp)
                   && negb (String.eqb (Location resp) "")
                   && malformed o (Location resp)
                then Err (LocationError (Location resp))
                else Ok resp
            end
        end).

(** [client.Get(url)]: a request is built, then sent. *)
Definition client_Get (o : outside) (cl : client) (url : string) : M (result Response) :=
  match http_NewRequest o url with
  | Some err => mret (Err err)
  | None => client_Do o cl url
  end.

(* ===================================================================== *)
(** ** golang.go *)
(* ===================================================================== *)

Definition downloadURL : string := "https://go.dev/dl/".

Record Runtime := {
  Version : string   (* something like "1.22.1" *)
}.

Definition ID (r : Runtime) : string := "go" ++ Version r.

Definition GetHash (r : Runtime) (_ : Tool) : result string := Ok "".

Definition Supports (r : Runtime) (tool : Tool) (cmd : list string) : bool :=
  IsGit (Source tool)
  && match cmd with
     | c0 :: _ => String.eqb c0 "${GPTSCRIPT_TOOL_DIR}/bin/gptscript-go-tool"
     | [] => false
     end.

Record release := {
  account : string;
  repo : string;
  label : string
}.

Definition checksumTxt (r : release) : string :=
  "https://github.com/" ++ account r ++ "/" ++ repo r
  ++ "/releases/download/" ++ label r ++ "/checksums.txt".

Definition exe_suffix (c : config) : string :=
  if String.eqb (GOOS c) "windows" then ".exe" else "".

Definition targetBinName (c : config) (r : release) : string :=
  "gptscript-go-tool" ++ exe_suffix c.

Definition srcBinName (c : config) (r : release) : string :=
  repo r ++ "-" ++ GOOS c ++ "-" ++ GOARCH c ++ exe_suffix c.

Definition binURL (c : config) (r : release) : string :=
  "https://github.com/" ++ account r ++ "/" ++ repo r
  ++ "/releases/download/" ++ label r ++ "/" ++ srcBinName c r.

(** [fmt.Sprintf("https://api.github.com/repos/%s/%s/tags", account, repo)] *)
Definition tags_url (account repo : string) : string :=
  "https://api.github.com/repos/" ++ account ++ "/" ++ repo ++ "/tags".

(** [fmt.Sprintf("https://github.com/%s/%s/releases/latest", account, repo)] *)
Definition latest_url (account repo : string) : string :=
  "https://github.com/" ++ account ++ "/" ++ repo ++ "/releases/latest".

(** [getLatestRelease].  The Go function returns [(nil, false)] or
    [(&release, true)]; the two are [None] and [Some]. *)
Definition getLatestRelease (c : config) (o : outside) (tool : Tool) : M (option release) :=
  match SourceRepo (Source tool) with
  | None => mret None
  | Some rp =>
      if negb (strings_HasPrefix (Root rp) "https://github.com/") then mret None
      else
        match strings_Split
                (strings_TrimPrefix (strings_TrimSuffix (Root rp) ".git") "https://")
                "/" with
        | [_; account; repo] =>
            r ← client_Get o LastResponseClient (tags_url account repo);
            match r with
            | Err _ => mret None
            | Ok resp =>
                if negb (StatusCode resp =? StatusOK)%Z then mret None
                else
                  match json_Decode_tags c (Body resp) with
                  | None => mret None
                  | Some tags =>
                      match find (fun t => String.eqb (Sha t) (Revision rp)) tags with
                      | Some t =>
                          mret (Some {| account := account; repo := repo; label := Name t |})
                      | None =>
                          r ← client_Get o LastResponseClient (latest_url account repo);
                          match r with
                          | Err _ => mret None
                          | Ok resp =>
                              if negb (StatusCode resp =? StatusFound)%Z then mret None
                              else
                                let target := Location resp in
                                if String.eqb target "" then mret None
                                else
                                  let parts := strings_Split target "/" in
                                  let label := List.last parts "" in
                                  mret (Some {| account := account; repo := repo;
                                                label := label |})
                          end
                      end
                  end
            end
        | _ => mret None
        end
  end.

(** [get]: a GET through [http.DefaultClient] that fails on any status but
    200. *)
Definition get (o : outside) (url : string) : M (result Response) :=
  match http_NewRequest o url with
  | Some err => mret (Err err)
  | None =>
      r ← client_Do o DefaultClient url;
      match r with
      | Err err => mret (Err err)
      | Ok resp =>
          if negb (StatusCode resp =? StatusOK)%Z
          then mret (Err (BadStatus (StatusCode resp)))
          else mret (Ok resp)
      end
  end.

Definition downloadBin (c : config) (o : outside) (checksum src url bin : string)
  : M (option error) :=
  r ← get o url;
  match r with
  | Err err => mret (Some err)
  | Ok resp =>
      e ← os_MkdirAll c o (filepath_Join c [src; "bin"]);
      match e with
      | Some err => mret (Some err)
      | None =>
          let targetFile := filepath_Join c [src; "bin"; bin] in
          e ← os_Create o targetFile;
          match e with
          | Some err => mret (Some err)
          | None =>
              '(written, e) ← io_Copy o targetFile (Body resp);
              match e with
              | Some err => mret (Some err)
              | None =>
                  e ← os_Close o targetFile;
                  match e with
                  | Some _ => mret None
                  | None =>
                      let got := sha256_hex written in
                      if negb (String.eqb got checksum)
                      then mret (Some (ChecksumMismatch got checksum))
                      else
                        e ← os_Chmod o targetFile 493%N;
                        match e with
                        | Some err => mret (Some err)
                        | None => mret None
                        end
                  end
              end
          end
      end
  end.

(** The scanning loop of [getChecksum] over the lines of the manifest. *)
Fixpoint checksum_scan (name : string) (lines : list string) : string :=
  match lines with
  | [] => ""
  | text :: rest =>
      match strings_Fields text with
      | [f0; f1] =>
          if negb (String.eqb f1 name) then checksum_scan name rest else f0
      | _ => checksum_scan name rest
      end
  end.

Definition getChecksum (c : config) (o : outside) (rel : release) : M string :=
  r ← get o (checksumTxt rel);
  match r with
  | Err _ => mret ""
  | Ok resp => mret (checksum_scan (srcBinName c rel) (scan_lines (bytes (Body resp))))
  end.

(** [Binary]: the result is the triple [(bool, []string, error)]. *)
Definition Binary (c : config) (o : outside) (r : Runtime) (tool : Tool)
    (toolSource : string) (env : list string)
  : M (bool * list string * option error) :=
  if negb (IsGit (Source tool)) then mret (false, [], None)
  else
    rel ← getLatestRelease c o tool;
    match rel with
    | None => mret (false, [], None)
    | Some rel =>
        checksum ← getChecksum c o rel;
        if String.eqb checksum "" then mret (false, [], None)
        else
          e ← downloadBin c o checksum toolSource (binURL c rel) (targetBinName c rel);
          match e with
          | Some _ => mret (false, [], None)
          | None => mret (true, env, None)
          end
    end.

(** The scanning loop of [getReleaseAndDigest]: [line[1]] is read before
    [line[0]], and neither access is guarded by a length check. *)
Fixpoint release_scan (r : Runtime) (c : config) (key : string) (lines : list string)
  : outcome (string * string) :=
  match lines with
  | [] => Return (Err (ReleaseNotFound (ID r) (GOOS c) (GOARCH c)))
  | text :: rest =>
      let line := strings_Split text "  " in
      match line !! 1 with
      | None => Panic (IndexOutOfRange 1 (length line))
      | Some l1 =>
          match line !! 0 with
          | None => Panic (IndexOutOfRange 0 (length line))
          | Some l0 =>
              let file := strings_TrimSpace l1 in
              let digest := strings_TrimSpace l0 in
              if strings_HasPrefix file key
              then Return (Ok ((downloadURL ++ file)%string, digest))
              else release_scan r c key rest
          end
      end
  end.

Definition release_key (c : config) (r : Runtime) : string :=
  ID r ++ "." ++ GOOS c ++ "-" ++ GOARCH c.

Definition getReleaseAndDigest (c : config) (r : Runtime) : outcome (string * string) :=
  release_scan r c (release_key c r) (scan_lines (releasesData c)).

(** The loop of [stripGo]: [result = append(result, env)] for every entry
    that does not start with [GO]. *)
Fixpoint stripGo_loop (result env : list string) : list string :=
  match env with
  | [] => result
  | e :: rest =>
      if strings_HasPrefix e "GO" then stripGo_loop result rest
      else stripGo_loop (result ++ [e]) rest
  end.

Definition stripGo (env : list string) : list string := stripGo_loop [] env.

Definition artifactName (c : config) : string :=
  if String.eqb (GOOS c) "windows"
  then filepath_Join c ["bin"; "gptscript-go-tool.exe"]
  else filepath_Join c ["bin"; "gptscript-go-tool"].

Definition binDir (c : config) (rel : string) : string :=
  filepath_Join c [rel; "go"; "bin"].

(** The final path of the cache entry of [(url, sha)] under [cwd], and the
    staging directory beside it. *)
Definition cache_target (c : config) (cwd url sha : string) : string :=
  filepath_Join c [cwd; "golang"; hash_ID c url sha].

Definition staging (target : string) : string := target ++ ".download".

Definition getRuntime (c : config) (o : outside) (r : Runtime) (cwd : string)
  : M (outcome string) :=
  match getReleaseAndDigest c r with
  | Panic p => mret (Panic p)
  | Return (Err err) => mret (Return (Err err))
  | Return (Ok (url, sha)) =>
      let target := cache_target c cwd url sha in
      st ← os_Stat o target;
      match st with
      | None => mret (Return (Ok (binDir c target)))
      | Some err =>
          if negb (errors_Is_ErrNotExist err) then mret (Return (Err err))
          else
            let tmp := staging target in
            defer (os_RemoveAll o tmp)
              (e ← os_MkdirAll c o tmp;
               match e with
               | Some err => mret (Return (Err err))
               | None =>
                   e ← download_Extract o url sha tmp;
                   match e with
                   | Some err => mret (Return (Err err))
                   | None =>
                       e ← os_Rename o tmp target;
                       match e with
                       | Some err => mret (Return (Err err))
                       | None => mret (Return (Ok (binDir c target)))
                       end
                   end
               end)
      end
  end.

(* ===================================================================== *)
(** ** The build command: [runBuild], [Setup], [BuildCredentialHelper] *)
(* ===================================================================== *)

(** A command as [debugcmd.New(ctx, name, args...)] makes it, with the fields
    the package sets before [cmd.Run()]. *)
Record Cmd := {
  CmdPath : string;   (* the executable *)
  CmdArgs : list string;
  CmdEnv : list string;
  CmdDir : string
}.

(** [credentials.CredentialHelperDirs], reduced to the fields read here. *)
Record CredentialHelperDirs := {
  BinDir : string;
  RepoDir : string
}.

(** What the build takes from elsewhere: [runtimeEnv.AppendPath] of pkg/env,
    a function of the environment and the directory, and what running a
    command returns. *)
Record toolbox := {
  AppendPath : list string -> string -> list string;
  exec : Cmd -> option error
}.

(** The world of a build: the files and calls as before, and the commands
    run so far, oldest first. *)
Record host := Host {
  disk : world;
  runs : list Cmd
}.

Definition B (A : Type) : Type := host -> A * host.

#[global] Instance B_ret : MRet B := fun A a h => (a, h).
#[global] Instance B_bind : MBind B :=
  fun A B0 f m h => let '(a, h') := m h in f a h'.

(** A computation on files and network, run inside a build. *)
Definition lift {A : Type} (m : M A) : B A :=
  fun h => let '(a, w') := m (disk h) in (a, Host w' (runs h)).

(** Modelled from the spec: [cmd.Run()] of pkg/debugcmd is not under src/.
    The process runner starts the executable with its arguments, working
    directory and environment, and returns its error. *)
Definition cmd_Run (t : toolbox) (cmd : Cmd) : B (option error) :=
  fun h => (exec t cmd, Host (disk h) (runs h ++ [cmd])).

Definition artifact_args (c : config) : list string :=
  ["build"; "-buildvcs=false"; "-o"; artifactName c].

Definition runBuild (c : config) (t : toolbox) (toolSource binDir : string)
    (env : list string) : B (option error) :=
  cmd_Run t {| CmdPath := filepath_Join c [binDir; "go"];
               CmdArgs := artifact_args c;
               CmdEnv := stripGo env;
               CmdDir := toolSource |}.

Definition Setup (c : config) (t : toolbox) (o : outside) (r : Runtime) (_ : Tool)
    (dataRoot toolSource : string) (env : list string) : B (outcome (list string)) :=
  res ← lift (getRuntime c o r dataRoot);
  match res with
  | Panic p => mret (Panic p)
  | Return (Err err) => mret (Return (Err err))
  | Return (Ok binPath) =>
      let newEnv := AppendPath t env binPath in
      e ← runBuild c t toolSource binPath (env ++ newEnv);
      match e with
      | Some err => mret (Return (Err err))
      | None => mret (Return (Ok newEnv))
      end
  end.

(** The command [BuildCredentialHelper] runs for a helper other than [file]. *)
Definition helper_cmd (c : config) (t : toolbox) (helperName : string)
    (credHelperDirs : CredentialHelperDirs) (revision binPath : string)
    (env : list string) : Cmd :=
  let suffix := if String.eqb helperName "wincred" then ".exe" else "" in
  let newEnv := AppendPath t env binPath in
  {| CmdPath := filepath_Join c [binPath; "go"];
     CmdArgs := ["build"; "-buildvcs=false"; "-o";
              filepath_Join c [BinDir credHelperDirs;
                               ("gptscript-credential-" ++ helperName ++ suffix)%string];
              ("./" ++ helperName ++ "/cmd/")%string];
     CmdEnv := stripGo (env ++ newEnv);
     CmdDir := filepath_Join c [RepoDir credHelperDirs; revision] |}.

(** [BuildCredentialHelper]: the result is the Go [error], nil being [Ok tt]. *)
Definition BuildCredentialHelper (c : config) (t : toolbox) (o : outside) (r : Runtime)
    (helperName : string) (credHelperDirs : CredentialHelperDirs)
    (dataRoot revision : string) (env : list string) : B (outcome unit) :=
  if String.eqb helperName "file" then mret (Return (Ok tt))
  else
    res ← lift (getRuntime c o r dataRoot);
    match res with
    | Panic p => mret (Panic p)
    | Return (Err err) => mret (Return (Err err))
    | Return (Ok binPath) =>
        e ← cmd_Run t (helper_cmd c t helperName credHelperDirs revision binPath env);
        match e with
        | Some err => mret (Return (Err err))
        | None => mret (Return (Ok tt))
        end
    end.

(* ===================================================================== *)
(** ** Notions used by the statements *)
(* ===================================================================== *)

(** A manifest line that [getReleaseAndDigest] can index at 1. *)
Definition has_separator (line : string) : bool := strings_Contains line "  ".

(** A line of [checksums.txt] that [getChecksum] accepts for [name]. *)
Definition qualifies (name line : string) : Prop :=
  exists digest, strings_Fields line = [digest; name].

(** The events of a run from [w] to [w']. *)
Definition since (w w' : world) : list event :=
  drop (length (trace w)) (trace w').

(** Archives fetched so far: one per call of [download.Extract]. *)
Definition is_download (e : event) : bool :=
  match e with
  | Sys (OpExtract _ _ _) => true
  | _ => false
  end.

Definition downloads (t : list event) : nat := length (filter (fun e => is_download e = true) t).


(** The file stores of a run from [w] to [w'], oldest first: the one it
    started from and the one after each of its writes. *)
Definition passed (w w' : world) : list (gmap string node) :=
  fs w :: drop (length (seen w)) (seen w').

(** The cache-entry invariant at a final path: what is there, if anything,
    is the completely unpacked archive of [(url, sha)]. *)
Definition holds_entry (url sha target : string) (files : gmap string node) : Prop :=
  files !! target = None \/ files !! target = Some (Dir (Unpacked url sha)).

Definition entry_ok (url sha target : string) (w : world) : Prop :=
  holds_entry url sha target (fs w).

(** A path outside a directory: neither the directory nor below it. *)
Definition outside_of (c : config) (dir path : string) : Prop :=
  path <> dir /\ dir ∉ ancestors c path.

(** The events of a run of [getRuntime] that provisions the entry: the
    probe, the staging directory, the extraction into it, the one rename
    that commits it, and the deferred removal. *)
Definition commit_sequence (url sha target : string) : list event :=
  [ Sys (OpStat target);
    Sys (OpMkdirAll (staging target));
    Sys (OpExtract url sha (staging target));
    Sys (OpRename (staging target) target);
    Sys (OpRemoveAll (staging target)) ].

(** A run from [w] to [w'] that committed the entry of [(url, sha)]: every
    step succeeded, the final path holds the unpacked archive, and in the
    course of the run it held nothing up to one write and the unpacked
    archive from then on. *)
Definition committed (c : config) (o : outside) (url sha target : string)
    (w w' : world) (res : outcome string) : Prop :=
  res = Return (Ok (binDir c target))
  /\ fs w' !! target = Some (Dir (Unpacked url sha))
  /\ since w w' = commit_sequence url sha target
  /\ fault o (OpStat target) = None
  /\ fault o (OpMkdirAll (staging target)) = None
  /\ fault o (OpExtract url sha (staging target)) = None
  /\ fault o (OpRename (staging target) target) = None
  /\ exists before after,
       passed w w' = before ++ after
       /\ Forall (fun files => files !! target = None) before
       /\ Forall (fun files => files !! target = Some (Dir (Unpacked url sha))) after.

(** A run that failed at the probe, at staging, at extraction or at the
    rename: the error is returned, and the final path holds nothing at the
    end and held nothing in the course of the run. *)
Definition aborted (c : config) (o : outside) (url sha target : string)
    (w w' : world) (res : outcome string) : Prop :=
  (exists err, res = Return (Err err))
  /\ fs w' !! target = None
  /\ Forall (fun files => files !! target = None) (passed w w')
  /\ (fault o (OpStat target) <> None
      \/ fault o (OpMkdirAll (staging target)) <> None
      \/ (exists name data mode,
            name ∈ staging target :: ancestors c (staging target)
            /\ fs w !! name = Some (File data mode))
      \/ fault o (OpExtract url sha (staging target)) <> None
      \/ fault o (OpRename (staging target) target) <> None).

(** A manifest line that the scan of [getReleaseAndDigest] indexes and
    moves past: it has a piece at index 1 and that file name does not start
    with the key. *)
Definition passed_over (key line : string) : Prop :=
  exists f, strings_Split line "  " !! 1 = Some f
            /\ strings_HasPrefix (strings_TrimSpace f) key = false.

(** The longest string of a list. *)
Definition longest (l : list string) : nat :=
  foldr (fun s n => Nat.max (String.length s) n) 0 l.

(** The longest piece of any line split on the two-space separator. *)
Definition widest_piece (lines : list string) : nat :=
  longest (concat (map (fun l => strings_Split l "  ") lines)).

(** A string of [n] bytes. *)
Fixpoint filler (n : nat) : string :=
  match n with
  | O => EmptyString
  | S k => String "x" (filler k)
  end.

(** Every byte of [s] satisfies [p]. *)
Fixpoint all_bytes (p : ascii -> bool) (s : string) : bool :=
  match s with
  | EmptyString => true
  | String c s' => p c && all_bytes p s'
  end.

(** A visible ASCII byte: neither a control byte, nor a space, nor above 126. *)
Definition plain_byte (c : ascii) : bool :=
  (33 <=? nat_of_ascii c) && (nat_of_ascii c <=? 126).

(** A word of visible ASCII bytes, as digests and file names are. *)
Definition plain (s : string) : bool := all_bytes plain_byte s.

(** A byte of a manifest line: visible, or a space. *)
Definition line_byte (c : ascii) : bool := plain_byte c || Ascii.eqb c " ".

(** A lower-case hexadecimal digit. *)
Definition is_lower_hex (c : ascii) : bool :=
  ((48 <=? nat_of_ascii c) && (nat_of_ascii c <=? 57))
  || ((97 <=? nat_of_ascii c) && (nat_of_ascii c <=? 102)).

(** The line of a digest manifest for [(digest, file)]: the two fields
    separated by two spaces. *)
Definition entry_line (e : string * string) : string :=
  (fst e ++ "  " ++ snd e)%string.

(** A text made of lines, each ended by a newline. *)
Fixpoint unlines (lines : list string) : string :=
  match lines with
  | [] => EmptyString
  | l :: rest => (l ++ String LF (unlines rest))%string
  end.

(** The manifest listing [entries], one per line. *)
Definition manifest_of (entries : list (string * string)) : string :=
  unlines (map entry_line entries).

(** An entry whose fields are words and whose line fits the scanner. *)
Definition well_formed_entry (e : string * string) : Prop :=
  plain (fst e) = true /\ plain (snd e) = true /\ fits_buffer (entry_line e) = true.

(* ===================================================================== *)
(** ** Sample configurations and surroundings *)
(* ===================================================================== *)

Definition slash_join (elems : list string) : string := String.concat "/" elems.

(** A stand-in for the JSON decoder: one tag per line, name then sha. *)
Definition line_tags (b : body) : option (list tag) :=
  Some (map (fun l => match strings_Fields l with
                      | [n; s] => {| Name := n; Sha := s |}
                      | _ => {| Name := ""; Sha := "" |}
                      end)
            (scan_lines (bytes b))).

Definition sample_config (manifest : string) : config :=
  {| GOOS := "linux";
     GOARCH := "amd64";
     releasesData := manifest;
     hash_ID := fun url sha => string_take 24 (sha256_hex (url ++ String "000" sha));
     filepath_Join := slash_join;
     json_Decode_tags := line_tags |}.

Definition go1_22_1 : Runtime := {| Version := "1.22.1" |}.

Definition manifest_go : string :=
  "deadbeef  go1.22.1.linux-amd64.tar.gz" ++ String LF "".

Definition manifest_spec : string :=
  "deadbeef  1.22.1.linux-amd64.tar.gz" ++ String LF "".

Definition manifest_blank_line : string :=
  String LF "deadbeef  go1.22.1.linux-amd64.tar.gz".

(** Nothing fails, the umask is 0, every URL parses and the network is
    unreachable. *)
Definition calm : outside :=
  {| fault := fun _ => None;
     enoent := fun _ => false;
     stalled := fun _ => 0;
     umask := 0%N;
     malformed := fun _ => false;
     transport := fun _ _ => None |}.

Definition serving (cl : client) (url : string) (resp : Response) (o : outside) : outside :=
  {| fault := fault o;
     enoent := enoent o;
     stalled := stalled o;
     umask := umask o;
     malformed := malformed o;
     transport := fun cl' url' =>
       if decide (cl' = cl /\ url' = url) then Some resp else transport o cl' url' |}.

Definition failing (call : syscall) (e : errno) (o : outside) : outside :=
  {| fault := fun call' => if decide (call' = call) then Some e else fault o call';
     enoent := enoent o;
     stalled := stalled o;
     umask := umask o;
     malformed := malformed o;
     transport := transport o |}.

Definition ok_response (data : string) : Response :=
  {| StatusCode := StatusOK; Location := ""; Body := {| bytes := data; broken := false |} |}.

Definition empty_world : world := World ∅ [] [].

Definition toolX : release := {| account := "acme"; repo := "toolX"; label := "v1.0.0" |}.

Definition checksums_toolX : string :=
  "abc123  toolX-linux-amd64" ++ String LF ("def456  toolX-darwin-arm64" ++ String LF "").

(** A tag listing in the line format of [line_tags]. *)
Definition tag_listing : string :=
  "v0.9.0 0badf00d" ++ String LF ("v1.0.0 c0ffee" ++ String LF ("v1.0.1 c0ffee" ++ String LF "")).

Definition redirect_to (target : string) : Response :=
  {| StatusCode := StatusFound; Location := target;
     Body := {| bytes := ""; broken := false |} |}.

(** GitHub answering the tag listing of acme/toolX, and redirecting its
    latest release to the tag v2.0.0. *)
Definition tags_then_redirect : outside :=
  serving LastResponseClient (tags_url "acme" "toolX") (ok_response tag_listing)
    (serving LastResponseClient (latest_url "acme" "toolX")
       (redirect_to "https://github.com/acme/toolX/releases/tag/v2.0.0") calm).

(** The digest of the three bytes [abc]. *)
Definition checksum_abc : string :=
  "ba7816bf8f01cfea414140de5dae2223b00361a396177a9cb410ff61f20015ad".

(** The binary of toolX is served as the five bytes [hello], and closing the
    downloaded file fails. *)
Definition close_fails : outside :=
  failing (OpClose "/tool/bin/gptscript-go-tool") EIO
    (serving DefaultClient
       "https://github.com/acme/toolX/releases/download/v1.0.0/toolX-linux-amd64"
       (ok_response "hello") calm).

(** GitHub lists the tags of acme/toolX and publishes, for v1.0.0, a checksum
    manifest that names the digest of [abc]; the binary served is [hello]. *)
Definition toolX_mismatch : outside :=
  serving LastResponseClient (tags_url "acme" "toolX") (ok_response tag_listing)
    (serving DefaultClient "https://github.com/acme/toolX/releases/download/v1.0.0/checksums.txt"
       (ok_response (checksum_abc ++ "  toolX-linux-amd64" ++ String LF ""))
       (serving DefaultClient
          "https://github.com/acme/toolX/releases/download/v1.0.0/toolX-linux-amd64"
          (ok_response "hello") calm)).

(** Entries of a digest manifest, the one of linux-arm64 first. *)
Definition go_entries : list (string * string) :=
  [ ("0a1b2c", "go1.22.1.linux-arm64.tar.gz");
    ("3d4e5f", "go1.22.1.linux-armv6l.tar.gz");
    ("deadbeef", "go1.22.1.linux-amd64.tar.gz") ].

(** The entries of [checksums_toolX]. *)
Definition toolX_entries : list (string * string) :=
  [ ("abc123", "toolX-linux-amd64"); ("def456", "toolX-darwin-arm64") ].

(** The binary of toolX is served as [hello], and as [abc]. *)
Definition serves_hello : outside :=
  serving DefaultClient
    "https://github.com/acme/toolX/releases/download/v1.0.0/toolX-linux-amd64"
    (ok_response "hello") calm.

Definition serves_abc : outside :=
  serving DefaultClient
    "https://github.com/acme/toolX/releases/download/v1.0.0/toolX-linux-amd64"
    (ok_response "abc") calm.


(** A toolbox whose [AppendPath] adds a [PATH] entry for the directory and
    whose commands succeed. *)
Definition sample_toolbox : toolbox :=
  {| AppendPath := fun env dir => env ++ [("PATH=" ++ dir)%string];
     exec := fun _ => None |}.

Definition github_tool (root revision : string) : Tool :=
  {| Source := {| SourceRepo := Some {| VCS := "git"; Root := root; Revision := revision |} |} |}.

(* ===================================================================== *)
(** ** Tactics for running the monad *)
(* ===================================================================== *)

(** Unfolds binds and the primitive state operations. *)
Ltac unfold_monad :=
  unfold defer, mbind, mret, M_bind, M_ret, emit, read_fs, write_fs in *;
  cbn beta iota zeta in *.

(** Succeeds on a term that contains no [match]. *)
Ltac without_match x :=
  lazymatch x with
  | context [match _ with _ => _ end] => fail
  | _ => idtac
  end.

(** Case analysis on the scrutinee of an innermost [match] of the goal. *)
Ltac split_match :=
  match goal with
  | |- context [match ?scrutinee with _ => _ end] =>
      without_match scrutinee; destruct scrutinee eqn:?
  end.

(** Runs a computation of [M] symbolically, one case per path. *)
Ltac run_all :=
  unfold_monad; unfold sys_error in *;
  repeat (cbn beta iota zeta delta [fst snd fs trace negb errors_Is_ErrNotExist] in *;
          try split_match).

(** Unfolds binds and the state operations of a build. *)
Ltac unfold_build :=
  unfold lift, cmd_Run, mbind, mret, B_bind, B_ret in *; cbn beta iota zeta in *.

(** Splits a statement about each store of an explicit list. *)
Ltac each_store := repeat first [apply List.Forall_nil | apply List.Forall_cons].

(** Picks the disjunct that the hypotheses decide. *)
Ltac pick_cause :=
  first [ congruence
        | solve [eauto]
        | left; pick_cause
        | right; pick_cause ].

(* ===================================================================== *)
(** * Properties *)
(* ===================================================================== *)

(** ** Strings *)

Lemma push_byte_length c l : l <> [] -> length (push_byte c l) = length l.
Proof. destruct l; [congruence | reflexivity]. Qed.

Lemma push_byte_nonempty c l : push_byte c l <> [].
Proof. destruct l; discriminate. Qed.

Lemma split_from_nonempty sep k s : split_from sep k s <> [].
Proof.
  revert k; induction s as [|c s IH]; intros k; cbn [split_from]; [discriminate|].
  destruct k; [|apply IH].
  destruct (strings_HasPrefix (String c s) sep); [discriminate | apply push_byte_nonempty].
Qed.

Lemma strings_Split_nonempty s sep : strings_Split s sep <> [].
Proof. destruct sep; [discriminate | apply split_from_nonempty]. Qed.

Lemma split_from_skip sep k s :
  split_from sep k s = split_from sep 0 (string_drop k s).
Proof.
  revert k; induction s as [|c s IH]; intros [|k]; try reflexivity.
  simpl. apply IH.
Qed.

(** The split has a second piece exactly when the separator occurs. *)
Lemma split_from_two sep s :
  sep <> "" ->
  (2 <= length (split_from sep 0 s)) <-> strings_Contains s sep = true.
Proof.
  intros Hsep. induction s as [|c s IH].
  - simpl. destruct sep; [congruence|]. simpl. split; [lia | discriminate].
  - cbn [split_from strings_Contains].
    destruct (strings_HasPrefix (String c s) sep) eqn:E.
    + cbn [orb length]. split; [reflexivity|]. intros _.
      pose proof (split_from_nonempty sep (String.length sep - 1) s) as N.
      destruct (split_from sep (String.length sep - 1) s); [congruence | simpl; lia].
    + cbn [orb]. rewrite push_byte_length by apply split_from_nonempty. exact IH.
Qed.

Lemma has_separator_lookup line :
  has_separator line = false <-> strings_Split line "  " !! 1 = None.
Proof.
  unfold has_separator.
  change (strings_Split line "  ") with (split_from "  " 0 line).
  rewrite lookup_ge_None.
  pose proof (split_from_two "  " line ltac:(discriminate)) as [H1 H2].
  destruct (strings_Contains line "  ").
  - specialize (H2 eq_refl). split; [discriminate | lia].
  - split; [|reflexivity]. intros _.
    destruct (Nat.le_gt_cases 2 (length (split_from "  " 0 line))) as [L|L]; [|lia].
    apply H1 in L. discriminate.
Qed.

Lemma prefix_length p s : String.prefix p s = true -> String.length p <= String.length s.
Proof.
  revert s; induction p as [|a p IH]; intros [|b s]; simpl; try lia; try discriminate.
  destruct (ascii_dec a b); [|discriminate]. intros H. apply IH in H. lia.
Qed.

Lemma string_drop_length n s : String.length (string_drop n s) <= String.length s.
Proof.
  revert s; induction n as [|n IH]; intros [|c s]; simpl; try lia.
  specialize (IH s). lia.
Qed.

Lemma trim_left_length fuel s : String.length (trim_left fuel s) <= String.length s.
Proof.
  revert s; induction fuel as [|f IH]; intros s; cbn [trim_left]; [lia|].
  destruct (space_width s); [lia|].
  etransitivity; [apply IH | apply string_drop_length].
Qed.

Lemma trim_right_rev_length fuel s :
  String.length (trim_right_rev fuel s) <= String.length s.
Proof.
  revert s; induction fuel as [|f IH]; intros s; cbn [trim_right_rev]; [lia|].
  destruct (space_width_last s); [lia|].
  etransitivity; [apply IH | apply string_drop_length].
Qed.

Lemma string_of_list_ascii_length l :
  String.length (string_of_list_ascii l) = length l.
Proof. induction l; simpl; congruence. Qed.

Lemma list_ascii_of_string_length s :
  length (list_ascii_of_string s) = String.length s.
Proof. induction s; simpl; congruence. Qed.

Lemma string_rev_length s : String.length (string_rev s) = String.length s.
Proof.
  unfold string_rev.
  rewrite string_of_list_ascii_length, length_rev.
  apply list_ascii_of_string_length.
Qed.

Lemma strings_TrimSpace_length s :
  String.length (strings_TrimSpace s) <= String.length s.
Proof.
  unfold strings_TrimSpace. rewrite string_rev_length.
  etransitivity; [apply trim_right_rev_length|].
  rewrite string_rev_length. apply trim_left_length.
Qed.

Lemma append_length s t :
  String.length (s ++ t) = String.length s + String.length t.
Proof. induction s; simpl; [reflexivity | cbn; f_equal; assumption]. Qed.

Lemma filler_length n : String.length (filler n) = n.
Proof. induction n; simpl; congruence. Qed.

Lemma longest_bound l s : s ∈ l -> String.length s <= longest l.
Proof.
  induction 1 as [s l | s t l _ IH]; simpl; lia.
Qed.

(** A key longer than the string cannot be its prefix. *)
Lemma HasPrefix_too_long s key :
  String.length s < String.length key -> strings_HasPrefix s key = false.
Proof.
  intros H. unfold strings_HasPrefix.
  destruct (String.prefix key s) eqn:E; [|reflexivity].
  apply prefix_length in E. lia.
Qed.

(** ** [crypto/sha256]: the test vectors of FIPS 180 *)

Example sha256_hex_abc : sha256_hex "abc" = checksum_abc.
Proof. vm_compute. reflexivity. Qed.

Example sha256_hex_empty :
  sha256_hex "" = "e3b0c44298fc1c149afbf4c8996fb92427ae41e4649b934ca495991b7852b855".
Proof. vm_compute. reflexivity. Qed.

Example sha256_hex_two_blocks :
  sha256_hex "abcdbcdecdefdefgefghfghighijhijkijkljklmklmnlmnomnopnopq"
  = "248d6a61d20638b8e5c026930c3e6039a33ce45964ff2167f6ecedd419db06c1".
Proof. vm_compute. reflexivity. Qed.

(** ** [getReleaseAndDigest] *)

Lemma split_lookup_0 line f :
  strings_Split line "  " !! 1 = Some f -> is_Some (strings_Split line "  " !! 0).
Proof.
  intros H. apply lookup_lt_is_Some. apply lookup_lt_Some in H. lia.
Qed.

Lemma split_unseparated_length line :
  has_separator line = false -> length (strings_Split line "  ") = 1.
Proof.
  intros H. apply has_separator_lookup in H. apply lookup_ge_None in H.
  pose proof (strings_Split_nonempty line "  ") as N.
  destruct (strings_Split line "  ") as [|a [|b l]]; simpl in *; [congruence | reflexivity | lia].
Qed.

(** Lines that all carry the separator are scanned without a panic. *)
Lemma release_scan_separated r c key lines :
  Forall (fun l => has_separator l = true) lines ->
  forall p, release_scan r c key lines <> Panic p.
Proof.
  induction 1 as [|x rest Hx _ IH]; intros p; cbn [release_scan]; [discriminate|].
  destruct (strings_Split x "  " !! 1) as [l1|] eqn:E1.
  - destruct (split_lookup_0 _ _ E1) as [l0 E0]. rewrite E0.
    destruct (strings_HasPrefix (strings_TrimSpace l1) key); [discriminate | apply IH].
  - apply has_separator_lookup in E1. congruence.
Qed.

(** The scan moves past the lines it can index and that do not match. *)
Lemma release_scan_passes r c key before rest :
  Forall (passed_over key) before ->
  release_scan r c key (before ++ rest) = release_scan r c key rest.
Proof.
  induction 1 as [|x before [f [E1 Hf]] _ IH]; [reflexivity|].
  cbn [app release_scan]. rewrite E1.
  destruct (split_lookup_0 _ _ E1) as [l0 E0]. rewrite E0, Hf. exact IH.
Qed.

(** It panics at the first line without separator that it reaches. *)
Lemma release_scan_panics r c key before line after :
  Forall (passed_over key) before ->
  has_separator line = false ->
  release_scan r c key (before ++ line :: after) = Panic (IndexOutOfRange 1 1).
Proof.
  intros Hb Hl. rewrite release_scan_passes by assumption.
  cbn [release_scan]. rewrite (split_unseparated_length _ Hl).
  apply has_separator_lookup in Hl. rewrite Hl. reflexivity.
Qed.

(** It returns at the first line whose file name starts with the key. *)
Lemma release_scan_first_match r c key before line after l0 l1 :
  Forall (passed_over key) before ->
  strings_Split line "  " !! 0 = Some l0 ->
  strings_Split line "  " !! 1 = Some l1 ->
  strings_HasPrefix (strings_TrimSpace l1) key = true ->
  release_scan r c key (before ++ line :: after)
  = Return (Ok ((downloadURL ++ strings_TrimSpace l1)%string, strings_TrimSpace l0)).
Proof.
  intros Hb E0 E1 Hm. rewrite release_scan_passes by assumption.
  cbn [release_scan]. rewrite E1, E0, Hm. reflexivity.
Qed.

(** When the key matches no piece of any line, a scan that does not panic
    has indexed every line. *)
Lemma release_scan_unmatched r c key lines :
  (forall l f, In l lines -> In f (strings_Split l "  ") ->
               strings_HasPrefix (strings_TrimSpace f) key = false) ->
  (forall p, release_scan r c key lines <> Panic p) ->
  Forall (fun l => has_separator l = true) lines.
Proof.
  induction lines as [|x rest IH]; intros Hkey Hsafe; [constructor|].
  cbn [release_scan] in Hsafe.
  destruct (strings_Split x "  " !! 1) as [l1|] eqn:E1.
  2: { exfalso. eapply Hsafe. reflexivity. }
  destruct (split_lookup_0 _ _ E1) as [l0 E0]. rewrite E0 in Hsafe.
  rewrite (Hkey x l1) in Hsafe.
  - constructor.
    + destruct (has_separator x) eqn:Hs; [reflexivity|].
      apply has_separator_lookup in Hs. congruence.
    + apply IH; [|exact Hsafe]. intros l f Hl. apply Hkey. right. exact Hl.
  - left. reflexivity.
  - apply list_elem_of_In. eapply list_elem_of_lookup_2. exact E1.
Qed.

Lemma longest_In l s : In s l -> String.length s <= longest l.
Proof. intros H. apply longest_bound. apply list_elem_of_In. exact H. Qed.

(** A version so long that its key is longer than any piece of the manifest. *)
Lemma long_key_unmatched c lines l f :
  In l lines -> In f (strings_Split l "  ") ->
  strings_HasPrefix (strings_TrimSpace f)
    (release_key c {| Version := filler (S (widest_piece lines)) |}) = false.
Proof.
  intros Hl Hf. apply HasPrefix_too_long.
  pose proof (strings_TrimSpace_length f) as Ht.
  assert (String.length f <= widest_piece lines) as Hw.
  { unfold widest_piece. apply longest_In. apply in_concat.
    exists (strings_Split l "  "). split; [|exact Hf].
    apply in_map_iff. exists l. split; [reflexivity | exact Hl]. }
  unfold release_key, ID. cbn [Version].
  rewrite !append_length, filler_length. lia.
Qed.

(** C9: [getReleaseAndDigest] indexes [line[1]] of every manifest line it
    reads without a length check.  A line without the two-space separator
    splits into one piece, so the lookup at index 1 yields nothing; the
    function panics at the first such line it reaches; and it is free of
    panics for every version and platform exactly when every line the
    scanner yields carries the separator. *)
Theorem getReleaseAndDigest_panics_without_separator (data : string) :
  (forall line, has_separator line = false <-> strings_Split line "  " !! 1 = None)
  /\ (forall c r before line after,
        releasesData c = data ->
        scan_lines data = before ++ line :: after ->
        Forall (passed_over (release_key c r)) before ->
        has_separator line = false ->
        getReleaseAndDigest c r = Panic (IndexOutOfRange 1 1))
  /\ ((forall c r, releasesData c = data -> forall p, getReleaseAndDigest c r <> Panic p)
      <-> Forall (fun line => has_separator line = true) (scan_lines data)).
Proof.
  split; [exact has_separator_lookup|]. split.
  - intros c r before line after Hd Hl Hb Hs.
    unfold getReleaseAndDigest. rewrite Hd, Hl.
    apply release_scan_panics; assumption.
  - split.
    + intros Hsafe.
      set (c := {| GOOS := ""; GOARCH := ""; releasesData := data;
                   hash_ID := fun _ _ => ""; filepath_Join := fun _ => "";
                   json_Decode_tags := fun _ => None |}).
      set (r := {| Version := filler (S (widest_piece (scan_lines data))) |}).
      apply (release_scan_unmatched r c (release_key c r)).
      * intros l f. apply long_key_unmatched.
      * exact (Hsafe c r eq_refl).
    + intros Hall c r Hd p. unfold getReleaseAndDigest. rewrite Hd.
      apply release_scan_separated. exact Hall.
Qed.

(** A manifest with an empty line in front of the entry: the scan panics. *)
Example getReleaseAndDigest_blank_line :
  getReleaseAndDigest (sample_config manifest_blank_line) go1_22_1
  = Panic (IndexOutOfRange 1 1).
Proof. vm_compute. reflexivity. Qed.

(** C3, as stated: with the entry of the spec, whose file name lacks the
    [go] of the toolchain id, nothing is resolved. *)
Lemma getReleaseAndDigest_spec_entry_not_found :
  getReleaseAndDigest (sample_config manifest_spec) go1_22_1
  = Return (Err (ReleaseNotFound "go1.22.1" "linux" "amd64"))
  /\ getReleaseAndDigest (sample_config manifest_spec) go1_22_1
     <> Return (Ok ("https://go.dev/dl/1.22.1.linux-amd64.tar.gz", "deadbeef")).
Proof. split; [vm_compute; reflexivity | vm_compute; discriminate]. Qed.

(** C3, amended: the toolchain id of version 1.22.1 is [go1.22.1], the key
    on linux/amd64 is [go1.22.1.linux-amd64], and the manifest entry
    [deadbeef  go1.22.1.linux-amd64.tar.gz], reached after lines that are
    indexed and do not match, resolves to its URL under [https://go.dev/dl/]
    and the digest [deadbeef]. *)
Theorem getReleaseAndDigest_go1_22_1 (c : config) (before after : list string) :
  GOOS c = "linux" ->
  GOARCH c = "amd64" ->
  scan_lines (releasesData c)
  = before ++ "deadbeef  go1.22.1.linux-amd64.tar.gz" :: after ->
  Forall (passed_over "go1.22.1.linux-amd64") before ->
  release_key c go1_22_1 = "go1.22.1.linux-amd64"
  /\ getReleaseAndDigest c go1_22_1
     = Return (Ok ("https://go.dev/dl/go1.22.1.linux-amd64.tar.gz", "deadbeef")).
Proof.
  intros Hos Harch Hlines Hbefore.
  assert (release_key c go1_22_1 = "go1.22.1.linux-amd64") as Hkey.
  { unfold release_key. rewrite Hos, Harch. reflexivity. }
  split; [exact Hkey|].
  unfold getReleaseAndDigest. rewrite Hkey, Hlines.
  rewrite (release_scan_first_match _ _ _ before _ after
             "deadbeef" "go1.22.1.linux-amd64.tar.gz"); try assumption; reflexivity.
Qed.

Lemma getReleaseAndDigest_go1_22_1_witness :
  release_key (sample_config manifest_go) go1_22_1 = "go1.22.1.linux-amd64"
  /\ getReleaseAndDigest (sample_config manifest_go) go1_22_1
     = Return (Ok ("https://go.dev/dl/go1.22.1.linux-amd64.tar.gz", "deadbeef")).
Proof.
  apply (getReleaseAndDigest_go1_22_1 (sample_config manifest_go) [] []);
    [reflexivity | reflexivity | vm_compute; reflexivity | constructor].
Defined.

(** ** Running the monad *)

Lemma since_self w : since w w = [].
Proof. unfold since. apply drop_all. Qed.

Lemma since_app f w evs h : since w (World f (trace w ++ evs) h) = evs.
Proof. unfold since. cbn [trace]. apply drop_app_length. Qed.

Lemma passed_self w : passed w w = [fs w].
Proof. unfold passed. rewrite drop_all. reflexivity. Qed.

Lemma passed_app f t w stores : passed w (World f t (seen w ++ stores)) = fs w :: stores.
Proof. unfold passed. cbn [seen]. rewrite drop_app_length. reflexivity. Qed.

Lemma find_first {A} (p : A -> bool) before x after :
  Forall (fun y => p y = false) before ->
  p x = true ->
  find p (before ++ x :: after) = Some x.
Proof.
  induction 1 as [|y before Hy _ IH]; intros Hx; cbn [app find].
  - rewrite Hx. reflexivity.
  - rewrite Hy. apply IH. exact Hx.
Qed.

(** ** [getLatestRelease] *)

(** C7: a tool without repository reference, or whose root does not start
    with [https://github.com/], or whose root, the [.git] suffix and the
    scheme trimmed, does not split on [/] into exactly three parts (host,
    account, repository), is not resolvable, and the world is left as it
    was: no request is built or sent. *)
Theorem getLatestRelease_offline (c : config) (o : outside) (tool : Tool) (w : world) :
  (forall rp, SourceRepo (Source tool) = Some rp ->
     strings_HasPrefix (Root rp) "https://github.com/" = false
     \/ length (strings_Split
                  (strings_TrimPrefix (strings_TrimSuffix (Root rp) ".git") "https://")
                  "/") <> 3) ->
  getLatestRelease c o tool w = (None, w)
  /\ since w (snd (getLatestRelease c o tool w)) = [].
Proof.
  intros H.
  assert (getLatestRelease c o tool w = (None, w)) as E.
  { unfold getLatestRelease.
    destruct (SourceRepo (Source tool)) as [rp|]; [|reflexivity].
    destruct (H rp eq_refl) as [Hp | Hl].
    - rewrite Hp. reflexivity.
    - destruct (strings_HasPrefix (Root rp) "https://github.com/"); [|reflexivity].
      cbn [negb].
      destruct (strings_Split _ "/") as [|p0 [|p1 [|p2 [|p3 l]]]];
        try reflexivity. cbn [length] in Hl. lia. }
  split; [exact E|]. rewrite E. apply since_self.
Qed.

Lemma getLatestRelease_offline_witness :
  getLatestRelease (sample_config manifest_go) calm
    (github_tool "https://gitlab.com/acme/toolX" "0123abcd") empty_world
  = (None, empty_world)
  /\ since empty_world
       (snd (getLatestRelease (sample_config manifest_go) calm
               (github_tool "https://gitlab.com/acme/toolX" "0123abcd") empty_world))
     = [].
Proof.
  apply (getLatestRelease_offline (sample_config manifest_go) calm
           (github_tool "https://gitlab.com/acme/toolX" "0123abcd") empty_world).
  intros rp E. injection E as <-. left. vm_compute. reflexivity.
Defined.

(** The two endpoints [getLatestRelease] asks. *)
Lemma endpoints_differ acct rpo :
  tags_url acct rpo <> latest_url acct rpo.
Proof. unfold tags_url, latest_url. cbv [String.append]. discriminate. Qed.

(** C8: when the tag listing is answered with status 200 and decodes to a
    list in which [t] is the first tag whose commit sha is the requested
    revision, the release label is the name of [t]; the only request sent is
    the one for the tag listing, so the latest-release endpoint is not asked
    and whatever it would answer is irrelevant. *)
Theorem getLatestRelease_tag_match (c : config) (o : outside) (tool : Tool)
    (rp : Repo) (host acct rpo : string) (resp : Response)
    (before after : list tag) (t : tag) (w : world) :
  SourceRepo (Source tool) = Some rp ->
  strings_HasPrefix (Root rp) "https://github.com/" = true ->
  strings_Split (strings_TrimPrefix (strings_TrimSuffix (Root rp) ".git") "https://") "/"
  = [host; acct; rpo] ->
  malformed o (tags_url acct rpo) = false ->
  transport o LastResponseClient (tags_url acct rpo) = Some resp ->
  StatusCode resp = StatusOK ->
  json_Decode_tags c (Body resp) = Some (before ++ t :: after) ->
  Forall (fun x => Sha x <> Revision rp) before ->
  Sha t = Revision rp ->
  let '(rel, w') := getLatestRelease c o tool w in
  rel = Some {| account := acct; repo := rpo; label := Name t |}
  /\ since w w' = [HttpGet LastResponseClient (tags_url acct rpo)]
  /\ (HttpGet LastResponseClient (latest_url acct rpo) ∉ since w w')
  /\ fs w' = fs w.
Proof.
  intros HR HP HS HM HT HC HD HB Ht.
  unfold getLatestRelease. rewrite HR, HP, HS. cbn [negb].
  fold (tags_url acct rpo). unfold client_Get, http_NewRequest. rewrite HM.
  unfold client_Do. unfold_monad. rewrite HT, HC.
  change (redirects StatusOK) with false. cbn [andb]. rewrite HC, Z.eqb_refl. cbn [negb].
  rewrite HD.
  rewrite (find_first _ before t after).
  - cbn beta iota. rewrite since_app. repeat split.
    intros Hin. apply list_elem_of_singleton in Hin.
    apply (endpoints_differ acct rpo). congruence.
  - eapply Forall_impl; [exact HB|]. intros x Hx. cbn beta.
    apply String.eqb_neq. exact Hx.
  - apply String.eqb_eq. exact Ht.
Qed.

Lemma getLatestRelease_tag_match_witness :
  let '(rel, w') :=
    getLatestRelease (sample_config manifest_go) tags_then_redirect
      (github_tool "https://github.com/acme/toolX.git" "c0ffee") empty_world in
  rel = Some {| account := "acme"; repo := "toolX"; label := "v1.0.0" |}
  /\ since empty_world w' = [HttpGet LastResponseClient (tags_url "acme" "toolX")]
  /\ (HttpGet LastResponseClient (latest_url "acme" "toolX") ∉ since empty_world w')
  /\ fs w' = fs empty_world.
Proof.
  apply (getLatestRelease_tag_match (sample_config manifest_go) tags_then_redirect
           (github_tool "https://github.com/acme/toolX.git" "c0ffee")
           {| VCS := "git"; Root := "https://github.com/acme/toolX.git"; Revision := "c0ffee" |}
           "github.com" "acme" "toolX" (ok_response tag_listing)
           [{| Name := "v0.9.0"; Sha := "0badf00d" |}]
           [{| Name := "v1.0.1"; Sha := "c0ffee" |}]
           {| Name := "v1.0.0"; Sha := "c0ffee" |} empty_world);
    try (vm_compute; reflexivity).
  - constructor; [vm_compute; discriminate | constructor].
Defined.

(** Without a matching tag the same surroundings resolve the label of the
    redirect: the tag match above did take precedence. *)
Example getLatestRelease_redirect_label :
  fst (getLatestRelease (sample_config manifest_go) tags_then_redirect
         (github_tool "https://github.com/acme/toolX.git" "feedface") empty_world)
  = Some {| account := "acme"; repo := "toolX"; label := "v2.0.0" |}.
Proof. vm_compute. reflexivity. Qed.

(** ** [get] and [getChecksum] *)

Lemma get_outcome o url w :
  get o url w
  = if malformed o url then (Err (RequestError url), w)
    else
      let w' := World (fs w) (trace w ++ [HttpGet DefaultClient url]) (seen w) in
      match transport o DefaultClient url with
      | None => (Err (TransportError url), w')
      | Some resp =>
          if (StatusCode resp =? StatusOK)%Z then (Ok resp, w')
          else (Err (BadStatus (StatusCode resp)), w')
      end.
Proof.
  unfold get, http_NewRequest, client_Do. unfold_monad.
  destruct (malformed o url); [reflexivity|].
  destruct (transport o DefaultClient url) as [resp|]; [|reflexivity].
  destruct (StatusCode resp =? StatusOK)%Z; reflexivity.
Qed.

(** The scan returns the digest of the first qualifying line, and the empty
    string when there is none. *)
Lemma checksum_scan_first name lines :
  (exists before text after,
     lines = before ++ text :: after
     /\ Forall (fun l => ~ qualifies name l) before
     /\ strings_Fields text = [checksum_scan name lines; name])
  \/ (checksum_scan name lines = "" /\ Forall (fun l => ~ qualifies name l) lines).
Proof.
  induction lines as [|text rest IH]; [right; split; [reflexivity | constructor]|].
  cbn [checksum_scan].
  assert (~ qualifies name text ->
          (exists before text0 after,
             text :: rest = before ++ text0 :: after
             /\ Forall (fun l => ~ qualifies name l) before
             /\ strings_Fields text0 = [checksum_scan name rest; name])
          \/ (checksum_scan name rest = ""
              /\ Forall (fun l => ~ qualifies name l) (text :: rest))) as Skip.
  { intros Hq. destruct IH as [(before & t & after & -> & Hb & Hf) | [He Hall]].
    - left. exists (text :: before), t, after. repeat split; [constructor; assumption | exact Hf].
    - right. split; [exact He | constructor; assumption]. }
  destruct (strings_Fields text) as [|f0 [|f1 [|f2 fields]]] eqn:EF;
    try (apply Skip; intros [d Hd]; rewrite EF in Hd; discriminate).
  destruct (String.eqb f1 name) eqn:E1; cbn [negb].
  - apply String.eqb_eq in E1. subst f1. left.
    exists [], text, rest. repeat split; [constructor | exact EF].
  - apply Skip. intros [d Hd]. rewrite EF in Hd. injection Hd as _ Hd.
    apply String.eqb_neq in E1. congruence.
Qed.

(** C6: [getChecksum] answers the first field of the first line of the
    fetched manifest that has exactly two white-space separated fields, the
    second being the source binary name [<repo>-<GOOS>-<GOARCH>] (with
    [.exe] on windows); it answers the empty string when no line qualifies
    and when the fetch fails: unparsable URL, transport failure, or a
    status other than 200. *)
Theorem getChecksum_first_qualifying_line (c : config) (o : outside) (rel : release)
    (w : world) :
  let name := srcBinName c rel in
  let url := checksumTxt rel in
  name = (repo rel ++ "-" ++ GOOS c ++ "-" ++ GOARCH c
          ++ (if String.eqb (GOOS c) "windows" then ".exe" else ""))%string
  /\ ((malformed o url = true
       \/ transport o DefaultClient url = None
       \/ (exists resp, transport o DefaultClient url = Some resp
                        /\ StatusCode resp <> StatusOK)) ->
      fst (getChecksum c o rel w) = "")
  /\ (forall resp,
        malformed o url = false ->
        transport o DefaultClient url = Some resp ->
        StatusCode resp = StatusOK ->
        let sum := fst (getChecksum c o rel w) in
        let lines := scan_lines (bytes (Body resp)) in
        (exists before text after,
           lines = before ++ text :: after
           /\ Forall (fun l => ~ qualifies name l) before
           /\ strings_Fields text = [sum; name])
        \/ (sum = "" /\ Forall (fun l => ~ qualifies name l) lines)).
Proof.
  intros name url. split; [reflexivity|].
  unfold getChecksum. unfold_monad. fold url. rewrite get_outcome. split.
  - intros [Hm | [Ht | (resp & Ht & Hs)]].
    + rewrite Hm. reflexivity.
    + destruct (malformed o url); [reflexivity|]. cbn zeta. rewrite Ht. reflexivity.
    + destruct (malformed o url); [reflexivity|]. cbn zeta. rewrite Ht.
      apply Z.eqb_neq in Hs. rewrite Hs. reflexivity.
  - intros resp Hm Ht Hs. rewrite Hm. cbn zeta. rewrite Ht, Hs, Z.eqb_refl.
    cbn [fst]. apply checksum_scan_first.
Qed.

(** The manifest of the spec: resolved for linux/amd64, empty for a
    platform that is not listed. *)
Example getChecksum_toolX_linux :
  fst (getChecksum (sample_config manifest_go)
         (serving DefaultClient (checksumTxt toolX) (ok_response checksums_toolX) calm)
         toolX empty_world)
  = "abc123".
Proof. vm_compute. reflexivity. Qed.

Example getChecksum_toolX_unlisted :
  fst (getChecksum
         {| GOOS := "freebsd"; GOARCH := "riscv64"; releasesData := manifest_go;
            hash_ID := fun _ _ => ""; filepath_Join := slash_join;
            json_Decode_tags := line_tags |}
         (serving DefaultClient (checksumTxt toolX) (ok_response checksums_toolX) calm)
         toolX empty_world)
  = "".
Proof. vm_compute. reflexivity. Qed.

(** ** [downloadBin] and [Binary] *)

(** C10: when [targetFile.Close()] fails, [downloadBin] does not depend on
    the expected checksum - the digest comparison is skipped -, never calls
    [os.Chmod], and every run that gets as far as closing the file returns
    nil: the download is reported as a success although its digest was not
    compared and the file was not marked executable. *)
Theorem downloadBin_close_error (c : config) (o : outside)
    (checksum src url bin : string) (e : errno) (w : world) :
  let file := filepath_Join c [src; "bin"; bin] in
  fault o (OpClose file) = Some e ->
  (forall checksum',
     downloadBin c o checksum' src url bin w = downloadBin c o checksum src url bin w)
  /\ (Sys (OpChmod file) ∉ since w (snd (downloadBin c o checksum src url bin w)))
  /\ (Sys (OpClose file) ∈ since w (snd (downloadBin c o checksum src url bin w)) ->
      fst (downloadBin c o checksum src url bin w) = None).
Proof.
  intros file Hclose.
  unfold downloadBin. unfold_monad. rewrite !get_outcome.
  unfold os_MkdirAll, os_Create, io_Copy, os_Close, os_Chmod, sys_error.
  fold file. unfold_monad. rewrite Hclose.
  split; [intros checksum'; run_all; reflexivity|].
  run_all; cbn [trace fs]; rewrite <- ?app_assoc; cbn [app];
    first [rewrite since_app | rewrite since_self].
  all: split; intros Hin;
    repeat match goal with
           | H : _ ∈ [] |- _ => apply not_elem_of_nil in H; contradiction
           | H : _ ∈ _ :: _ |- _ =>
               apply elem_of_cons in H; destruct H as [H | H]; [discriminate H|]
           end;
    reflexivity.
Qed.

Lemma downloadBin_close_error_witness :
  (forall checksum',
     downloadBin (sample_config manifest_go) close_fails checksum'
       "/tool" (binURL (sample_config manifest_go) toolX) "gptscript-go-tool" empty_world
     = downloadBin (sample_config manifest_go) close_fails checksum_abc
         "/tool" (binURL (sample_config manifest_go) toolX) "gptscript-go-tool" empty_world)
  /\ (Sys (OpChmod "/tool/bin/gptscript-go-tool")
      ∉ since empty_world
          (snd (downloadBin (sample_config manifest_go) close_fails checksum_abc
                  "/tool" (binURL (sample_config manifest_go) toolX)
                  "gptscript-go-tool" empty_world)))
  /\ (Sys (OpClose "/tool/bin/gptscript-go-tool")
      ∈ since empty_world
          (snd (downloadBin (sample_config manifest_go) close_fails checksum_abc
                  "/tool" (binURL (sample_config manifest_go) toolX)
                  "gptscript-go-tool" empty_world)) ->
      fst (downloadBin (sample_config manifest_go) close_fails checksum_abc
             "/tool" (binURL (sample_config manifest_go) toolX) "gptscript-go-tool"
             empty_world) = None).
Proof.
  apply (downloadBin_close_error (sample_config manifest_go) close_fails checksum_abc
           "/tool" (binURL (sample_config manifest_go) toolX) "gptscript-go-tool"
           EIO empty_world).
  vm_compute. reflexivity.
Defined.

(** In that run the file is closed, so the premise of the last part holds. *)
Example downloadBin_close_reached :
  since empty_world
    (snd (downloadBin (sample_config manifest_go) close_fails checksum_abc
            "/tool" (binURL (sample_config manifest_go) toolX) "gptscript-go-tool"
            empty_world))
  = [ HttpGet DefaultClient (binURL (sample_config manifest_go) toolX);
      Sys (OpMkdirAll "/tool/bin");
      Sys (OpCreate "/tool/bin/gptscript-go-tool");
      Sys (OpWrite "/tool/bin/gptscript-go-tool");
      Sys (OpClose "/tool/bin/gptscript-go-tool") ].
Proof. vm_compute. reflexivity. Qed.

(** C2, at the failing input: the body [hello] does not have the expected
    digest, closing the file fails, and [downloadBin] returns nil; the file
    is left in place with the mode it was created with. *)
Theorem downloadBin_unverified_success :
  sha256_hex "hello" <> checksum_abc
  /\ fst (downloadBin (sample_config manifest_go) close_fails checksum_abc
            "/tool" (binURL (sample_config manifest_go) toolX) "gptscript-go-tool"
            empty_world) = None
  /\ fs (snd (downloadBin (sample_config manifest_go) close_fails checksum_abc
                "/tool" (binURL (sample_config manifest_go) toolX)
                "gptscript-go-tool" empty_world))
     !! "/tool/bin/gptscript-go-tool" = Some (File "hello" 438%N).
Proof.
  split; [vm_compute; discriminate|].
  split; vm_compute; reflexivity.
Qed.

(** Under the usual umask 022 the same run leaves the file with mode 0644. *)
Example downloadBin_unverified_umask :
  let o := {| fault := fault close_fails; enoent := enoent close_fails;
              stalled := stalled close_fails; umask := 18%N;
              malformed := malformed close_fails; transport := transport close_fails |} in
  let '(res, w') := downloadBin (sample_config manifest_go) o checksum_abc
                      "/tool" (binURL (sample_config manifest_go) toolX)
                      "gptscript-go-tool" empty_world in
  res = None
  /\ fs w' !! "/tool/bin/gptscript-go-tool" = Some (File "hello" 420%N)
  /\ fs w' !! "/tool/bin" = Some (Dir Bare)
  /\ fs w' !! "/tool" = Some (Dir Bare).
Proof. vm_compute. repeat split. Qed.

(** With the same payload and a file that closes, the mismatch is reported. *)
Example downloadBin_mismatch_reported :
  fst (downloadBin (sample_config manifest_go)
         (serving DefaultClient (binURL (sample_config manifest_go) toolX)
            (ok_response "hello") calm)
         checksum_abc "/tool" (binURL (sample_config manifest_go) toolX)
         "gptscript-go-tool" empty_world)
  = Some (ChecksumMismatch (sha256_hex "hello") checksum_abc).
Proof. vm_compute. reflexivity. Qed.

(** When closing the file does not fail, [downloadBin] returns nil only for
    a payload whose digest is the expected one, and a status other than 200
    is reported by an error of its own. *)
Lemma downloadBin_verifies_when_closed c o checksum src url bin w :
  fault o (OpClose (filepath_Join c [src; "bin"; bin])) = None ->
  (fst (downloadBin c o checksum src url bin w) = None ->
   exists resp, transport o DefaultClient url = Some resp
                /\ sha256_hex (bytes (Body resp)) = checksum)
  /\ (forall resp, malformed o url = false ->
        transport o DefaultClient url = Some resp ->
        StatusCode resp <> StatusOK ->
        fst (downloadBin c o checksum src url bin w) = Some (BadStatus (StatusCode resp))
        /\ forall got want, BadStatus (StatusCode resp) <> ChecksumMismatch got want).
Proof.
  intros Hclose. split.
  - unfold downloadBin. unfold_monad. rewrite get_outcome.
    unfold os_MkdirAll, os_Create, io_Copy, os_Close, os_Chmod.
    run_all; intros Hres; try discriminate Hres; try congruence.
    all: eexists; split; [reflexivity|].
    all: match goal with
         | H : negb (String.eqb _ _) = false |- _ =>
             apply negb_false_iff, String.eqb_eq in H; exact H
         end.
  - intros resp Hm Ht Hs. split; [|discriminate].
    unfold downloadBin. unfold_monad. rewrite get_outcome, Hm. cbn zeta.
    rewrite Ht. apply Z.eqb_neq in Hs. rewrite Hs. reflexivity.
Qed.

(** C5: [Binary] never returns an error.  Its result is [(true, env, nil)]
    when the source is git-style, a release is resolved, the checksum is not
    empty and [downloadBin] returns nil; in every other case, whichever step
    failed and with whatever error, it is [(false, nil, nil)]. *)
Theorem Binary_never_errors (c : config) (o : outside) (r : Runtime) (tool : Tool)
    (toolSource : string) (env : list string) (w : world) :
  let '(found, env', err, w') := Binary c o r tool toolSource env w in
  err = None
  /\ ((found = false /\ env' = [])
      \/ (found = true /\ env' = env /\ IsGit (Source tool) = true
          /\ exists rel w1 checksum w2,
               getLatestRelease c o tool w = (Some rel, w1)
               /\ getChecksum c o rel w1 = (checksum, w2)
               /\ checksum <> ""
               /\ downloadBin c o checksum toolSource (binURL c rel) (targetBinName c rel) w2
                  = (None, w'))).
Proof.
  unfold Binary.
  destruct (IsGit (Source tool)) eqn:Hgit; cbn [negb]; [|split; [reflexivity | left; split; reflexivity]].
  unfold_monad.
  destruct (getLatestRelease c o tool w) as [[rel|] w1] eqn:Hrel;
    [|split; [reflexivity | left; split; reflexivity]].
  destruct (getChecksum c o rel w1) as [checksum w2] eqn:Hsum.
  destruct (String.eqb checksum "") eqn:Hempty;
    [split; [reflexivity | left; split; reflexivity]|].
  destruct (downloadBin c o checksum toolSource (binURL c rel) (targetBinName c rel) w2)
    as [[e|] w3] eqn:Hbin;
    [split; [reflexivity | left; split; reflexivity]|].
  split; [reflexivity|]. right. repeat split.
  exists rel, w1, checksum, w2.
  split; [reflexivity|]. split; [exact Hsum|]. split; [|exact Hbin].
  apply String.eqb_neq. exact Hempty.
Qed.

(** A digest mismatch inside [Binary] is converted into the negative result. *)
Example Binary_swallows_mismatch :
  fst (Binary (sample_config manifest_go) toolX_mismatch go1_22_1
         (github_tool "https://github.com/acme/toolX.git" "c0ffee") "/tool" ["HOME=/root"]
         empty_world)
  = (false, [], None).
Proof. vm_compute. reflexivity. Qed.

(** ** [getRuntime] *)

Lemma append_nonempty_differs s t : t <> "" -> (s ++ t)%string <> s.
Proof.
  intros Ht. induction s as [|a s IH]; cbn.
  - exact Ht.
  - intros E. injection E as E. exact (IH E).
Qed.

Lemma staging_differs target : staging target <> target.
Proof. apply append_nonempty_differs. discriminate. Qed.


(** ** Paths and their parents *)

Lemma append_inv_head s t u : (s ++ t)%string = (s ++ u)%string -> t = u.
Proof.
  induction s as [|a s IH]; cbn; [trivial|].
  intros E. injection E as E. exact (IH E).
Qed.

Lemma append_assoc a b c : ((a ++ b) ++ c)%string = (a ++ (b ++ c))%string.
Proof.
  induction a as [|x a IH]; [reflexivity|].
  change ((String x a ++ b)%string) with (String x (a ++ b)).
  change ((String x (a ++ b) ++ c)%string) with (String x ((a ++ b) ++ c)).
  rewrite IH. reflexivity.
Qed.

(** A parent stands in the path right before a separator. *)
Lemma parents_from_split c walked in_name rest found a :
  a ∈ parents_from c walked in_name rest found ->
  a ∈ found
  \/ exists sep below, os_IsPathSeparator c sep = true
                       /\ (walked ++ rest)%string = (a ++ String sep below)%string.
Proof.
  revert walked in_name found.
  induction rest as [|ch rest IH]; intros walked in_name found; cbn [parents_from].
  - left. assumption.
  - intros Ha. apply IH in Ha as [Ha | (sep & below & Hsep & Hb)].
    + destruct (os_IsPathSeparator c ch) eqn:Hch; cbn [andb] in Ha.
      * destruct (in_name && has_name c rest); [|left; exact Ha].
        apply elem_of_cons in Ha as [-> | Ha]; [|left; exact Ha].
        right. exists ch, rest. split; [exact Hch | reflexivity].
      * left. exact Ha.
    + right. exists sep, below. split; [exact Hsep|].
      rewrite <- Hb, append_assoc. reflexivity.
Qed.

Lemma ancestors_split c path a :
  a ∈ ancestors c path ->
  exists sep below, os_IsPathSeparator c sep = true /\ path = (a ++ String sep below)%string.
Proof.
  intros Ha. apply parents_from_split in Ha as [Ha | Hb].
  - apply not_elem_of_nil in Ha. contradiction.
  - exact Hb.
Qed.

Lemma ancestors_not_self c path : path ∉ ancestors c path.
Proof.
  intros Ha. apply ancestors_split in Ha as (sep & below & _ & Hb).
  symmetry in Hb. revert Hb. apply append_nonempty_differs. discriminate.
Qed.

(** The final path is no parent of the staging directory beside it. *)
Lemma target_not_above_staging c target : target ∉ ancestors c (staging target).
Proof.
  intros Ha. apply ancestors_split in Ha as (sep & below & Hsep & Hb).
  unfold staging in Hb. apply append_inv_head in Hb. injection Hb as <- _.
  unfold os_IsPathSeparator in Hsep. cbn in Hsep.
  rewrite andb_false_r in Hsep. discriminate Hsep.
Qed.

(** What [make_dirs] leaves at a name: what was there, or a new and empty
    directory at a missing name of the chain. *)
Lemma make_dirs_lookup files chain made q :
  make_dirs files chain = Some made ->
  made !! q = files !! q
  \/ (q ∈ chain /\ files !! q = None /\ made !! q = Some (Dir Bare)).
Proof.
  revert made. induction chain as [|name above IH]; intros made; cbn [make_dirs].
  - intros E. injection E as <-. left. reflexivity.
  - destruct (files !! name) as [[pl|data mode]|] eqn:Hn.
    + intros E. injection E as <-. left. reflexivity.
    + discriminate.
    + destruct (make_dirs files above) as [m|]; [|discriminate].
      intros E. injection E as <-.
      destruct (decide (q = name)) as [->|Hq].
      * right. rewrite lookup_insert_eq. split; [apply list_elem_of_here | split; [exact Hn | reflexivity]].
      * rewrite lookup_insert_ne by congruence.
        destruct (IH m eq_refl) as [E | (Hin & E1 & E2)]; [left; exact E|].
        right. split; [apply list_elem_of_further; exact Hin | split; assumption].
Qed.

Lemma make_dirs_outside files chain made q :
  make_dirs files chain = Some made -> q ∉ chain -> made !! q = files !! q.
Proof.
  intros Hm Hq. destruct (make_dirs_lookup files chain made q Hm) as [E | (Hin & _)].
  - exact E.
  - contradiction.
Qed.

(** After the walk the nearest name is a directory. *)
Lemma make_dirs_made files name above made :
  make_dirs files (name :: above) = Some made ->
  exists pl, made !! name = Some (Dir pl).
Proof.
  cbn [make_dirs]. destruct (files !! name) as [[pl|data mode]|] eqn:Hn.
  - intros E. injection E as <-. eauto.
  - discriminate.
  - destruct (make_dirs files above) as [m|]; [|discriminate].
    intros E. injection E as <-. exists Bare. apply lookup_insert_eq.
Qed.

(** The walk fails only at a name that is a file. *)
Lemma make_dirs_blocked files chain :
  make_dirs files chain = None ->
  exists name data mode, name ∈ chain /\ files !! name = Some (File data mode).
Proof.
  induction chain as [|name above IH]; cbn [make_dirs]; [discriminate|].
  destruct (files !! name) as [[pl|data mode]|] eqn:Hn.
  - discriminate.
  - intros _. exists name, data, mode. split; [apply list_elem_of_here | exact Hn].
  - destruct (make_dirs files above) as [m|]; [discriminate|].
    intros _. destruct (IH eq_refl) as (n & d & m & Hin & E).
    exists n, d, m. split; [apply list_elem_of_further; exact Hin | exact E].
Qed.

Lemma elem_of_drop_list {A} (x : A) n l : x ∈ drop n l -> x ∈ l.
Proof.
  revert l. induction n as [|n IH]; intros [|y l]; cbn; trivial.
  intros H. apply list_elem_of_further. apply IH. exact H.
Qed.

Example ancestors_sample :
  ancestors (sample_config manifest_go) "/data/golang/659213a737b297cf9c54779a.download"
  = ["/data/golang"; "/data"]
  /\ ancestors (sample_config manifest_go) "tool//bin/" = ["tool"]
  /\ ancestors (sample_config manifest_go) "/data" = []
  /\ ancestors (sample_config manifest_go) "C:\data\golang" = []
  /\ ancestors {| GOOS := "windows"; GOARCH := "amd64"; releasesData := manifest_go;
                  hash_ID := fun _ _ => ""; filepath_Join := slash_join;
                  json_Decode_tags := line_tags |} "C:\data\golang"
     = ["C:\data"; "C:"].
Proof. vm_compute. repeat split. Qed.

Lemma passed_same f t w : passed w (World f t (seen w)) = [fs w].
Proof. unfold passed. cbn [seen]. rewrite drop_all. reflexivity. Qed.

Lemma target_outside_chain c target :
  target ∉ staging target :: ancestors c (staging target).
Proof.
  intros H. apply elem_of_cons in H as [H | H].
  - symmetry in H. exact (staging_differs target H).
  - exact (target_not_above_staging c target H).
Qed.

(** What a walk of [os.MkdirAll] for a directory, complete or not, leaves
    at another name: what was there, or a new and empty parent. *)
Lemma make_dirs_frame c files chain made dir p :
  (forall name, name ∈ chain -> name ∈ dir :: ancestors c dir) ->
  make_dirs files chain = Some made ->
  p <> dir ->
  made !! p = files !! p
  \/ (p ∈ ancestors c dir /\ files !! p = None /\ made !! p = Some (Dir Bare)).
Proof.
  intros Hsub Hm Hp.
  destruct (make_dirs_lookup files chain made p Hm) as [E | (Hin & E1 & E2)].
  - left. exact E.
  - right. apply Hsub, elem_of_cons in Hin as [Hin | Hin]; [contradiction|].
    split; [exact Hin | split; assumption].
Qed.

Lemma drop_ancestors c k dir name :
  name ∈ drop k (ancestors c dir) -> name ∈ dir :: ancestors c dir.
Proof. intros H. apply list_elem_of_further. exact (elem_of_drop_list _ _ _ H). Qed.

(** For the staging directory the walk leaves the final path as it was. *)
Lemma make_dirs_staging c files chain made target :
  (forall name, name ∈ chain -> name ∈ staging target :: ancestors c (staging target)) ->
  make_dirs files chain = Some made ->
  made !! target = files !! target
  /\ (forall p, p <> staging target ->
        made !! p = files !! p
        \/ (p ∈ ancestors c (staging target) /\ files !! p = None
            /\ made !! p = Some (Dir Bare))).
Proof.
  intros Hsub Hm. split.
  - apply (make_dirs_outside files chain made target Hm).
    intros Hin. exact (target_outside_chain c target (Hsub _ Hin)).
  - intros p Hp. exact (make_dirs_frame c files chain made (staging target) p Hsub Hm Hp).
Qed.

(** A run for the release [(url, sha)]: the invariant at the final path is
    kept by every store of the run; from a miss the run commits or aborts;
    once the probe has reported the entry missing the removal of the staging
    directory is the last call, and the directory is gone when that call
    does not fail or the rename has moved it; no path outside the two is
    touched but for the parents [os.MkdirAll] makes. *)
Lemma getRuntime_resolved_run c o r cwd url sha w :
  getReleaseAndDigest c r = Return (Ok (url, sha)) ->
  let target := cache_target c cwd url sha in
  let tmp := staging target in
  let '(res, w') := getRuntime c o r cwd w in
  (entry_ok url sha target w ->
   Forall (holds_entry url sha target) (passed w w') /\ entry_ok url sha target w')
  /\ last (passed w w') = Some (fs w')
  /\ (fs w !! target = None ->
      committed c o url sha target w w' res \/ aborted c o url sha target w w' res)
  /\ (fs w !! target = None -> fault o (OpStat target) = None ->
      last (since w w') = Some (Sys (OpRemoveAll tmp))
      /\ (fault o (OpRemoveAll tmp) = None \/ (exists d, res = Return (Ok d)) ->
          fs w' !! tmp = None))
  /\ (forall p, outside_of c target p -> outside_of c tmp p ->
      fs w' !! p = fs w !! p
      \/ (p ∈ ancestors c tmp /\ fs w !! p = None /\ fs w' !! p = Some (Dir Bare))).
Proof.
  intros Hrel target tmp.
  pose proof (staging_differs target) as Hne. fold tmp in Hne.
  unfold getRuntime. rewrite Hrel. fold target. fold tmp.
  unfold os_Stat, os_MkdirAll, download_Extract, os_Rename, os_RemoveAll.
  run_all.
  all: unfold entry_ok, holds_entry, committed, aborted; fold tmp; cbn [fs trace seen].
  all: rewrite <- ?app_assoc; cbn [app]; rewrite ?since_app, ?passed_app, ?passed_same.
  all: repeat match goal with
       | H : make_dirs _ (_ :: ancestors _ _) = Some _ |- _ =>
           destruct (make_dirs_staging c _ _ _ target (fun _ Hin => Hin) H) as [Ht Hfr];
           destruct (make_dirs_made _ _ _ _ H) as [? Hmade];
           clear H
       | H : make_dirs _ (drop ?k (ancestors _ _)) = Some _ |- _ =>
           destruct (make_dirs_staging c _ _ _ target (drop_ancestors c k (staging target)) H)
             as [Ht Hfr];
           clear H
       | H : make_dirs _ _ = None |- _ =>
           apply make_dirs_blocked in H; destruct H as (? & ? & ? & ? & ?)
       end.
  all: split; [intros [?|?]; (split; [each_store|]); simplify_map_eq; rewrite ?Ht; auto; try congruence|].
  all: split; [reflexivity|].
  all: split;
    [intros Hmiss; simplify_map_eq; rewrite ?Ht in *; try congruence;
     first [ left; repeat (split; [solve [simplify_map_eq; rewrite ?Ht; auto]|]);
             exists [fs w; g; <[tmp:=Dir (Unpacked url sha)]> g]; eexists;
             split; [reflexivity|]; split; each_store; simplify_map_eq; rewrite ?Ht; auto
           | right; split; [eauto|]; split; [simplify_map_eq; rewrite ?Ht; auto|];
             split; [each_store; simplify_map_eq; rewrite ?Ht; auto|]; pick_cause ]|].
  all: split;
    [intros Hmiss Hprobe;
     first [ discriminate
           | split; [reflexivity|];
             intros [Hgone | [d Hd]];
             first [discriminate | simplify_map_eq; reflexivity] ]|].
  all: intros q [Hq1 Hq2] [Hq3 Hq4]; simplify_map_eq;
    first [left; reflexivity | exact (Hfr q Hq3)].
Qed.

(** C1, with the clean-up as the code has it: every run of [getRuntime]
    preserves the cache-entry invariant.  When the release resolves to
    [(url, sha)], what is at the final path in any file store of the run,
    the last one included, is nothing or the completely unpacked archive.
    Starting without an entry, the run either commits - the probe, staging,
    extraction and rename all succeed, the events are exactly stat, mkdir of
    the staging directory, extract, one rename and the deferred removal, and
    the final path holds nothing up to one write and the unpacked archive
    from then on - or a step fails, the error is returned and the final
    path holds nothing at the end and held nothing in the course of the run.
    Once the probe has reported the entry missing, [os.RemoveAll] of the
    staging directory [target.download] is the last call on every exit
    path; its error is dropped, so the directory is gone when that call does
    not fail or when the rename has moved it, and may remain otherwise.  A
    path outside the final path and the staging directory is left as it
    was, unless it is a missing parent of the staging directory, which
    [os.MkdirAll] makes.  When the release does not resolve (an error or a
    panic of [getReleaseAndDigest]) the world is left as it was. *)
Theorem getRuntime_cache_entry_invariant (c : config) (o : outside) (r : Runtime)
    (cwd : string) (w : world) :
  (forall url sha,
     getReleaseAndDigest c r = Return (Ok (url, sha)) ->
     let target := cache_target c cwd url sha in
     let tmp := staging target in
     let '(res, w') := getRuntime c o r cwd w in
     (entry_ok url sha target w ->
      Forall (holds_entry url sha target) (passed w w') /\ entry_ok url sha target w')
     /\ last (passed w w') = Some (fs w')
     /\ (fs w !! target = None ->
         committed c o url sha target w w' res \/ aborted c o url sha target w w' res)
     /\ (fs w !! target = None -> fault o (OpStat target) = None ->
         last (since w w') = Some (Sys (OpRemoveAll tmp))
         /\ (fault o (OpRemoveAll tmp) = None \/ (exists d, res = Return (Ok d)) ->
             fs w' !! tmp = None))
     /\ (forall p, outside_of c target p -> outside_of c tmp p ->
         fs w' !! p = fs w !! p
         \/ (p ∈ ancestors c tmp /\ fs w !! p = None /\ fs w' !! p = Some (Dir Bare))))
  /\ (forall err, getReleaseAndDigest c r = Return (Err err) ->
      getRuntime c o r cwd w = (Return (Err err), w))
  /\ (forall p, getReleaseAndDigest c r = Panic p ->
      getRuntime c o r cwd w = (Panic p, w)).
Proof.
  split; [|split].
  - intros url sha Hrel. exact (getRuntime_resolved_run c o r cwd url sha w Hrel).
  - intros err Hrel. unfold getRuntime. rewrite Hrel. reflexivity.
  - intros p Hrel. unfold getRuntime. rewrite Hrel. reflexivity.
Qed.

Lemma getRuntime_cache_entry_invariant_witness :
  let target := cache_target (sample_config manifest_go) "/data"
                  "https://go.dev/dl/go1.22.1.linux-amd64.tar.gz" "deadbeef" in
  let tmp := staging target in
  let '(res, w') := getRuntime (sample_config manifest_go) calm go1_22_1 "/data" empty_world in
  (entry_ok "https://go.dev/dl/go1.22.1.linux-amd64.tar.gz" "deadbeef" target empty_world ->
   Forall (holds_entry "https://go.dev/dl/go1.22.1.linux-amd64.tar.gz" "deadbeef" target)
     (passed empty_world w')
   /\ entry_ok "https://go.dev/dl/go1.22.1.linux-amd64.tar.gz" "deadbeef" target w')
  /\ last (passed empty_world w') = Some (fs w')
  /\ (fs empty_world !! target = None ->
      committed (sample_config manifest_go) calm
        "https://go.dev/dl/go1.22.1.linux-amd64.tar.gz" "deadbeef" target empty_world w' res
      \/ aborted (sample_config manifest_go) calm
           "https://go.dev/dl/go1.22.1.linux-amd64.tar.gz" "deadbeef" target
           empty_world w' res)
  /\ (fs empty_world !! target = None -> fault calm (OpStat target) = None ->
      last (since empty_world w') = Some (Sys (OpRemoveAll tmp))
      /\ (fault calm (OpRemoveAll tmp) = None \/ (exists d, res = Return (Ok d)) ->
          fs w' !! tmp = None))
  /\ (forall p, outside_of (sample_config manifest_go) target p -> outside_of (sample_config manifest_go) tmp p ->
      fs w' !! p = fs empty_world !! p
      \/ (p ∈ ancestors (sample_config manifest_go) tmp /\ fs empty_world !! p = None
          /\ fs w' !! p = Some (Dir Bare))).
Proof.
  apply (proj1 (getRuntime_cache_entry_invariant (sample_config manifest_go) calm go1_22_1
                  "/data" empty_world)
           "https://go.dev/dl/go1.22.1.linux-amd64.tar.gz" "deadbeef").
  vm_compute. reflexivity.
Defined.

(** The staging directory is not removed on every exit path: when the
    extraction fails and the deferred [os.RemoveAll] fails as well, the
    error of the extraction is returned, that of the removal is dropped, and
    the staging directory stays behind with what the extraction left. *)
Lemma getRuntime_staging_left_behind :
  let target := "/data/golang/659213a737b297cf9c54779a" in
  let o := failing (OpRemoveAll (staging target)) EACCES
             (failing (OpExtract "https://go.dev/dl/go1.22.1.linux-amd64.tar.gz" "deadbeef"
                         (staging target)) EIO calm) in
  let '(res, w') := getRuntime (sample_config manifest_go) o go1_22_1 "/data" empty_world in
  res = Return (Err (SysError (OpExtract "https://go.dev/dl/go1.22.1.linux-amd64.tar.gz"
                                 "deadbeef" (staging target)) EIO))
  /\ last (since empty_world w') = Some (Sys (OpRemoveAll (staging target)))
  /\ fs w' !! staging target = Some (Dir Partial)
  /\ fs w' !! target = None.
Proof. vm_compute. repeat split. Qed.

(** From the empty cache and with nothing failing, the run commits. *)
Example getRuntime_commits :
  let target := "/data/golang/659213a737b297cf9c54779a" in
  let '(res, w') := getRuntime (sample_config manifest_go) calm go1_22_1 "/data" empty_world in
  res = Return (Ok "/data/golang/659213a737b297cf9c54779a/go/bin")
  /\ fs w' !! target
     = Some (Dir (Unpacked "https://go.dev/dl/go1.22.1.linux-amd64.tar.gz" "deadbeef"))
  /\ fs w' !! staging target = None
  /\ since empty_world w'
     = commit_sequence "https://go.dev/dl/go1.22.1.linux-amd64.tar.gz" "deadbeef" target.
Proof. vm_compute. repeat split. Qed.

(** An extraction that fails: the error comes back, and neither the final
    path nor the staging directory exists afterwards. *)
Example getRuntime_extract_fails :
  let target := "/data/golang/659213a737b297cf9c54779a" in
  let o := failing (OpExtract "https://go.dev/dl/go1.22.1.linux-amd64.tar.gz" "deadbeef"
                      (staging target)) EIO calm in
  let '(res, w') := getRuntime (sample_config manifest_go) o go1_22_1 "/data" empty_world in
  res = Return (Err (SysError (OpExtract "https://go.dev/dl/go1.22.1.linux-amd64.tar.gz"
                                 "deadbeef" (staging target)) EIO))
  /\ fs w' !! target = None
  /\ fs w' !! staging target = None.
Proof. vm_compute. repeat split. Qed.





(** Two calls in a row from an empty cache: one download in all, and the
    same directory twice. *)
Example getRuntime_twice :
  let '(res1, w1) := getRuntime (sample_config manifest_go) calm go1_22_1 "/data" empty_world in
  let '(res2, w2) := getRuntime (sample_config manifest_go) calm go1_22_1 "/data" w1 in
  res1 = Return (Ok "/data/golang/659213a737b297cf9c54779a/go/bin")
  /\ res2 = res1
  /\ downloads (trace w1) = 1
  /\ downloads (trace w2) = 1.
Proof. vm_compute. repeat split. Qed.

(* ===================================================================== *)
(** * Further properties *)
(* ===================================================================== *)

(** ** [stripGo] *)

Lemma stripGo_loop_filter result env :
  stripGo_loop result env
  = result ++ filter (fun e => strings_HasPrefix e "GO" = false) env.
Proof.
  revert result. induction env as [|e rest IH]; intros result; cbn [stripGo_loop].
  - rewrite filter_nil, app_nil_r. reflexivity.
  - rewrite filter_cons. destruct (strings_HasPrefix e "GO") eqn:E.
    + rewrite decide_False by discriminate. apply IH.
    + rewrite decide_True by reflexivity. rewrite IH, <- app_assoc. reflexivity.
Qed.

(** X1: [stripGo] returns, in their order, exactly the entries of the
    environment that do not start with the bytes [GO]; in particular no
    entry [GO...] survives, whatever follows the two bytes.  Stripping twice
    is stripping once, and stripping a concatenation is concatenating the
    stripped parts. *)
Theorem stripGo_keeps_the_rest (env : list string) :
  stripGo env = filter (fun e => strings_HasPrefix e "GO" = false) env
  /\ (forall e, e ∈ stripGo env <-> e ∈ env /\ strings_HasPrefix e "GO" = false)
  /\ (forall rest, ("GO" ++ rest)%string ∉ stripGo env)
  /\ stripGo (stripGo env) = stripGo env
  /\ (forall more, stripGo (env ++ more) = stripGo env ++ stripGo more).
Proof.
  assert (forall l, stripGo l = filter (fun e => strings_HasPrefix e "GO" = false) l) as F.
  { intros l. unfold stripGo. rewrite stripGo_loop_filter. reflexivity. }
  split; [apply F|]. split; [|split; [|split]].
  - intros e. rewrite F, list_elem_of_filter. tauto.
  - intros rest Hin. rewrite F in Hin. apply list_elem_of_filter in Hin as [Hp _].
    destruct rest; vm_compute in Hp; discriminate Hp.
  - rewrite !F. apply list_filter_filter_l. tauto.
  - intros more. rewrite !F. apply filter_app.
Qed.

Example stripGo_sample :
  stripGo ["GOPATH=/go"; "HOME=/root"; "GOOGLE_API_KEY=k"; "go=lower"; "PATH=/bin"]
  = ["HOME=/root"; "go=lower"; "PATH=/bin"].
Proof. vm_compute. reflexivity. Qed.

(** ** Manifests made of entries *)

Lemma prefix_empty s : String.prefix "" s = true.
Proof. destruct s; reflexivity. Qed.

Lemma all_bytes_app p s t : all_bytes p (s ++ t) = all_bytes p s && all_bytes p t.
Proof.
  induction s as [|c s IH]; [reflexivity|].
  change ((String c s ++ t)%string) with (String c (s ++ t)).
  cbn [all_bytes]. rewrite IH, andb_assoc. reflexivity.
Qed.

Lemma all_bytes_list p s : all_bytes p s = forallb p (list_ascii_of_string s).
Proof. induction s as [|c s IH]; [reflexivity|]. cbn. rewrite IH. reflexivity. Qed.

Lemma all_bytes_rev p s : all_bytes p (string_rev s) = all_bytes p s.
Proof.
  unfold string_rev. rewrite !all_bytes_list, list_ascii_of_string_of_list_ascii.
  apply eq_true_iff_eq. rewrite !forallb_forall.
  split; intros H x Hx; apply H; [apply in_rev in Hx | apply in_rev]; assumption.
Qed.

Lemma string_rev_involutive s : string_rev (string_rev s) = s.
Proof.
  unfold string_rev.
  rewrite list_ascii_of_string_of_list_ascii, rev_involutive.
  apply string_of_list_ascii_of_string.
Qed.

(** No white-space rune starts with a visible ASCII byte. *)
Lemma space_width_plain c s : plain_byte c = true -> space_width (String c s) = 0.
Proof.
  unfold plain_byte, space_width. intros H.
  apply andb_true_iff in H as [H1 H2].
  apply Nat.leb_le in H1. apply Nat.leb_le in H2.
  remember (nat_of_ascii c) as b.
  assert ((b <=? 13) = false) as -> by (apply Nat.leb_gt; lia).
  assert ((b =? 32) = false) as -> by (apply Nat.eqb_neq; lia).
  assert ((b =? 194) = false) as -> by (apply Nat.eqb_neq; lia).
  assert ((b =? 225) = false) as -> by (apply Nat.eqb_neq; lia).
  assert ((b =? 226) = false) as -> by (apply Nat.eqb_neq; lia).
  assert ((b =? 227) = false) as -> by (apply Nat.eqb_neq; lia).
  rewrite andb_false_r. cbn [orb andb].
  destruct s as [|c1 [|c2 s]]; reflexivity.
Qed.

Lemma space_width_empty : space_width "" = 0.
Proof. reflexivity. Qed.

Lemma trim_left_plain fuel s : plain s = true -> trim_left fuel s = s.
Proof.
  intros H. destruct fuel; [reflexivity|]. cbn [trim_left].
  destruct s as [|c s]; [reflexivity|].
  cbn [plain all_bytes] in H. apply andb_true_iff in H as [H _].
  rewrite (space_width_plain c s H). reflexivity.
Qed.

Lemma space_width_last_plain r : plain r = true -> space_width_last r = 0.
Proof.
  intros H. unfold space_width_last.
  destruct r as [|c2 r]; [reflexivity|].
  cbn [plain all_bytes] in H. apply andb_true_iff in H as [H2 H].
  rewrite (space_width_plain c2 "" H2). cbn [Nat.eqb].
  destruct r as [|c1 r]; [reflexivity|].
  cbn [all_bytes] in H. apply andb_true_iff in H as [H1 H].
  rewrite (space_width_plain c1 _ H1). cbn [Nat.eqb].
  destruct r as [|c0 r]; [reflexivity|].
  cbn [all_bytes] in H. apply andb_true_iff in H as [H0 H].
  rewrite (space_width_plain c0 _ H0). reflexivity.
Qed.

Lemma trim_right_rev_plain fuel r : plain r = true -> trim_right_rev fuel r = r.
Proof.
  intros H. destruct fuel; [reflexivity|]. cbn [trim_right_rev].
  rewrite (space_width_last_plain r H). reflexivity.
Qed.

(** [strings.TrimSpace] leaves a word as it is. *)
Lemma strings_TrimSpace_plain s : plain s = true -> strings_TrimSpace s = s.
Proof.
  intros H. unfold strings_TrimSpace.
  rewrite trim_left_plain by exact H.
  rewrite trim_right_rev_plain by (unfold plain; rewrite all_bytes_rev; exact H).
  apply string_rev_involutive.
Qed.

Lemma HasPrefix_plain_head c s sep0 sep :
  plain_byte c = true -> plain_byte sep0 = false ->
  strings_HasPrefix (String c s) (String sep0 sep) = false.
Proof.
  intros Hc Hs. unfold strings_HasPrefix. cbn [String.prefix].
  destruct (ascii_dec sep0 c) as [->|]; [congruence | reflexivity].
Qed.

Lemma Contains_plain s sep0 sep :
  plain s = true -> plain_byte sep0 = false ->
  strings_Contains s (String sep0 sep) = false.
Proof.
  intros H Hs. induction s as [|c s IH]; [reflexivity|].
  cbn [plain all_bytes] in H. apply andb_true_iff in H as [Hc H].
  cbn [strings_Contains]. rewrite (HasPrefix_plain_head c s sep0 sep Hc Hs).
  apply IH. exact H.
Qed.

(** Without an occurrence of the separator the split is the string itself. *)
Lemma split_from_absent sep s :
  strings_Contains s sep = false -> split_from sep 0 s = [s].
Proof.
  induction s as [|c s IH]; [reflexivity|].
  cbn [strings_Contains split_from]. intros H.
  apply orb_false_iff in H as [Hp Hc]. rewrite Hp, (IH Hc). reflexivity.
Qed.

(** Two words joined by two spaces split into the two words. *)
Lemma split_entry_line d f :
  plain d = true -> plain f = true ->
  strings_Split (entry_line (d, f)) "  " = [d; f].
Proof.
  intros Hd Hf. unfold entry_line. cbn [fst snd].
  change (strings_Split (d ++ "  " ++ f) "  ") with (split_from "  " 0 (d ++ "  " ++ f)).
  induction d as [|c d IH].
  - cbv [String.append]. cbn [split_from].
    unfold strings_HasPrefix at 1. cbn [String.prefix].
    destruct (ascii_dec " " " ") as [_|N]; [|congruence].
    destruct (ascii_dec " " " ") as [_|N]; [|congruence].
    rewrite prefix_empty. cbn [String.length Nat.sub].
    rewrite (split_from_absent "  " f) by (apply Contains_plain; [exact Hf | reflexivity]).
    reflexivity.
  - cbn [plain all_bytes] in Hd. apply andb_true_iff in Hd as [Hc Hd].
    change ((String c d ++ "  " ++ f)%string) with (String c (d ++ "  " ++ f)).
    cbn [split_from].
    rewrite (HasPrefix_plain_head c _ " " " " Hc) by reflexivity.
    rewrite (IH Hd). reflexivity.
Qed.

Lemma plain_byte_not_LF c : plain_byte c = true -> Ascii.eqb c LF = false.
Proof.
  intros H. destruct (Ascii.eqb c LF) eqn:E; [|reflexivity].
  apply Ascii.eqb_eq in E. subst c. discriminate H.
Qed.

Lemma line_byte_not_LF c : line_byte c = true -> Ascii.eqb c LF = false.
Proof.
  intros H. destruct (Ascii.eqb c LF) eqn:E; [|reflexivity].
  apply Ascii.eqb_eq in E. subst c. discriminate H.
Qed.

Lemma line_byte_not_CR c : line_byte c = true -> Ascii.eqb c CR = false.
Proof.
  intros H. destruct (Ascii.eqb c CR) eqn:E; [|reflexivity].
  apply Ascii.eqb_eq in E. subst c. discriminate H.
Qed.

Lemma raw_lines_line l rest :
  all_bytes line_byte l = true ->
  raw_lines (l ++ String LF rest) = l :: raw_lines rest.
Proof.
  intros H. induction l as [|c l IH].
  - cbv [String.append]. cbn [raw_lines]. rewrite Ascii.eqb_refl. reflexivity.
  - cbn [all_bytes] in H. apply andb_true_iff in H as [Hc H].
    change ((String c l ++ String LF rest)%string) with (String c (l ++ String LF rest)).
    cbn [raw_lines]. rewrite (line_byte_not_LF c Hc), (IH H). reflexivity.
Qed.

Lemma dropCR_line l : all_bytes line_byte l = true -> dropCR l = l.
Proof.
  induction l as [|c l IH]; [reflexivity|]. intros H.
  cbn [all_bytes] in H. apply andb_true_iff in H as [Hc H].
  cbn [dropCR]. destruct l as [|c' l'].
  - rewrite (line_byte_not_CR c Hc). reflexivity.
  - rewrite (IH H). reflexivity.
Qed.

(** The scanner gives back the lines a text was made of. *)
Lemma scan_lines_unlines lines :
  Forall (fun l => all_bytes line_byte l = true /\ fits_buffer l = true) lines ->
  scan_lines (unlines lines) = lines.
Proof.
  unfold scan_lines. induction 1 as [|l rest [Hl Hfit] _ IH]; [reflexivity|].
  cbn [unlines]. rewrite (raw_lines_line l _ Hl). cbn [scan_tokens].
  rewrite Hfit, (dropCR_line l Hl), IH. reflexivity.
Qed.

Lemma plain_line_bytes s : plain s = true -> all_bytes line_byte s = true.
Proof.
  unfold plain. induction s as [|c s IH]; [reflexivity|]. cbn [all_bytes].
  intros H. apply andb_true_iff in H as [Hc H]. unfold line_byte at 1.
  rewrite Hc, (IH H). reflexivity.
Qed.

Lemma entry_line_bytes e :
  plain (fst e) = true -> plain (snd e) = true ->
  all_bytes line_byte (entry_line e) = true.
Proof.
  intros Hd Hf. unfold entry_line. rewrite !all_bytes_app.
  rewrite (plain_line_bytes _ Hd), (plain_line_bytes _ Hf). reflexivity.
Qed.

Lemma scan_lines_manifest entries :
  Forall well_formed_entry entries ->
  scan_lines (manifest_of entries) = map entry_line entries.
Proof.
  intros H. unfold manifest_of. apply scan_lines_unlines.
  apply Forall_map. eapply Forall_impl; [exact H|].
  intros e (Hd & Hf & Hfit). split; [apply entry_line_bytes; assumption | exact Hfit].
Qed.

(** ** [getReleaseAndDigest] and [getChecksum] on manifests of entries *)

Lemma release_scan_entries r c key entries :
  Forall (fun e => plain (fst e) = true /\ plain (snd e) = true) entries ->
  release_scan r c key (map entry_line entries)
  = match find (fun e => strings_HasPrefix (snd e) key) entries with
    | Some e => Return (Ok ((downloadURL ++ snd e)%string, fst e))
    | None => Return (Err (ReleaseNotFound (ID r) (GOOS c) (GOARCH c)))
    end.
Proof.
  induction 1 as [|[d f] rest [Hd Hf] _ IH]; [reflexivity|].
  cbn [fst snd] in Hd, Hf. cbn [map release_scan find fst snd].
  rewrite (split_entry_line d f Hd Hf). cbn [lookup list_lookup].
  rewrite (strings_TrimSpace_plain f Hf), (strings_TrimSpace_plain d Hd).
  destruct (strings_HasPrefix f key); [reflexivity | exact IH].
Qed.

(** X2: on a manifest that lists entries [digest  file], one per line, the
    fields being words of visible ASCII bytes, [getReleaseAndDigest] is a
    search in the list: it returns the URL [https://go.dev/dl/file] and the
    digest of the first entry whose file name starts with the key
    [go<version>.<GOOS>-<GOARCH>], and the not-found error when there is
    none; it does not panic. *)
Theorem getReleaseAndDigest_first_listed (c : config) (r : Runtime)
    (entries : list (string * string)) :
  releasesData c = manifest_of entries ->
  Forall well_formed_entry entries ->
  getReleaseAndDigest c r
  = match find (fun e => strings_HasPrefix (snd e) (release_key c r)) entries with
    | Some e => Return (Ok ((downloadURL ++ snd e)%string, fst e))
    | None => Return (Err (ReleaseNotFound (ID r) (GOOS c) (GOARCH c)))
    end.
Proof.
  intros Hdata Hwf. unfold getReleaseAndDigest.
  rewrite Hdata, (scan_lines_manifest entries Hwf).
  apply release_scan_entries.
  eapply Forall_impl; [exact Hwf|]. intros e (Hd & Hf & _). split; assumption.
Qed.

Lemma getReleaseAndDigest_first_listed_witness :
  getReleaseAndDigest (sample_config (manifest_of go_entries)) go1_22_1
  = match find (fun e => strings_HasPrefix (snd e)
                           (release_key (sample_config (manifest_of go_entries)) go1_22_1))
                go_entries with
    | Some e => Return (Ok ((downloadURL ++ snd e)%string, fst e))
    | None => Return (Err (ReleaseNotFound (ID go1_22_1) "linux" "amd64"))
    end.
Proof.
  apply (getReleaseAndDigest_first_listed (sample_config (manifest_of go_entries))
           go1_22_1 go_entries).
  - reflexivity.
  - repeat constructor.
Defined.

(** The key is tested as a prefix: on linux/arm the entry of linux-arm64,
    listed first, is the one resolved. *)
Example getReleaseAndDigest_prefix_of_other_platform :
  getReleaseAndDigest
    {| GOOS := "linux"; GOARCH := "arm"; releasesData := manifest_of go_entries;
       hash_ID := fun _ _ => ""; filepath_Join := slash_join;
       json_Decode_tags := line_tags |}
    go1_22_1
  = Return (Ok ("https://go.dev/dl/go1.22.1.linux-arm64.tar.gz", "0a1b2c")).
Proof. vm_compute. reflexivity. Qed.

Lemma space_width_space r : space_width (String " " r) = 1.
Proof. reflexivity. Qed.

Lemma fields_from_space r :
  fields_from 0 (String " " r) = (false, snd (fields_from 0 r)).
Proof. cbn [fields_from]. rewrite space_width_space. reflexivity. Qed.

(** A word in front of a space or of the end is the first field. *)
Lemma fields_from_word w rest :
  plain w = true -> w <> "" ->
  rest = "" \/ (exists r, rest = String " " r) ->
  fields_from 0 (w ++ rest) = (true, w :: snd (fields_from 0 rest)).
Proof.
  intros Hw Hne Hrest. induction w as [|c w IH]; [congruence|].
  cbn [plain all_bytes] in Hw. apply andb_true_iff in Hw as [Hc Hw].
  change ((String c w ++ rest)%string) with (String c (w ++ rest)).
  cbn [fields_from]. rewrite (space_width_plain c _ Hc).
  destruct w as [|c' w'].
  - change (("" ++ rest)%string) with rest.
    destruct Hrest as [-> | [r' ->]]; [reflexivity|].
    rewrite fields_from_space. reflexivity.
  - rewrite (IH Hw) by discriminate. reflexivity.
Qed.

Lemma append_empty_r s : (s ++ "")%string = s.
Proof.
  induction s as [|c s IH]; [reflexivity|].
  change ((String c s ++ "")%string) with (String c (s ++ "")). rewrite IH. reflexivity.
Qed.

(** The fields of an entry line are its two words. *)
Lemma fields_entry_line d f :
  plain d = true -> plain f = true -> d <> "" -> f <> "" ->
  strings_Fields (entry_line (d, f)) = [d; f].
Proof.
  intros Hd Hf Nd Nf. unfold strings_Fields, entry_line. cbn [fst snd].
  rewrite (fields_from_word d ("  " ++ f) Hd Nd) by (right; eexists; reflexivity).
  cbn [snd]. change (("  " ++ f)%string) with (String " " (String " " f)).
  rewrite !fields_from_space. cbn [snd].
  rewrite <- (append_empty_r f) at 1.
  rewrite (fields_from_word f "" Hf Nf) by (left; reflexivity).
  reflexivity.
Qed.

Lemma checksum_scan_entries name entries :
  Forall (fun e => plain (fst e) = true /\ plain (snd e) = true
                   /\ fst e <> "" /\ snd e <> "") entries ->
  checksum_scan name (map entry_line entries)
  = match find (fun e => String.eqb (snd e) name) entries with
    | Some e => fst e
    | None => ""
    end.
Proof.
  induction 1 as [|[d f] rest (Hd & Hf & Nd & Nf) _ IH]; [reflexivity|].
  cbn [fst snd] in *. cbn [map checksum_scan find fst snd].
  rewrite (fields_entry_line d f Hd Hf Nd Nf).
  destruct (String.eqb f name); [reflexivity | exact IH].
Qed.

(** X3: when the checksum manifest is fetched with status 200 and lists
    entries [digest  name], one per line, the fields being non-empty words,
    [getChecksum] returns the digest of the first entry whose name is the
    source binary name, and the empty string exactly when no entry has that
    name: an empty result cannot come from a listed binary. *)
Theorem getChecksum_listed_digest (c : config) (o : outside) (rel : release)
    (resp : Response) (entries : list (string * string)) (w : world) :
  malformed o (checksumTxt rel) = false ->
  transport o DefaultClient (checksumTxt rel) = Some resp ->
  StatusCode resp = StatusOK ->
  bytes (Body resp) = manifest_of entries ->
  Forall (fun e => well_formed_entry e /\ fst e <> "" /\ snd e <> "") entries ->
  fst (getChecksum c o rel w)
  = match find (fun e => String.eqb (snd e) (srcBinName c rel)) entries with
    | Some e => fst e
    | None => ""
    end
  /\ (fst (getChecksum c o rel w) = ""
      <-> Forall (fun e => snd e <> srcBinName c rel) entries).
Proof.
  intros Hm Ht Hs Hb Hwf.
  assert (fst (getChecksum c o rel w)
          = match find (fun e => String.eqb (snd e) (srcBinName c rel)) entries with
            | Some e => fst e
            | None => ""
            end) as E.
  { unfold getChecksum. unfold_monad. rewrite get_outcome, Hm. cbn zeta.
    rewrite Ht, Hs, Z.eqb_refl. cbn [fst]. rewrite Hb.
    rewrite scan_lines_manifest
      by (eapply Forall_impl; [exact Hwf|]; intros e [He _]; exact He).
    apply checksum_scan_entries.
    eapply Forall_impl; [exact Hwf|]. intros e ((Hd & Hf & _) & Nd & Nf). auto. }
  split; [exact E|]. rewrite E. clear E Hb.
  induction Hwf as [|e rest (_ & Nd & _) _ IH]; [split; [constructor | reflexivity]|].
  cbn [find]. destruct (String.eqb (snd e) (srcBinName c rel)) eqn:Eq.
  - apply String.eqb_eq in Eq. split; [intros Hd; congruence|].
    intros Hall. apply Forall_cons in Hall as [Hall _]. congruence.
  - apply String.eqb_neq in Eq. rewrite IH. split.
    + intros Hall. constructor; assumption.
    + intros Hall. apply Forall_cons in Hall as [_ Hall]. exact Hall.
Qed.

Lemma getChecksum_listed_digest_witness :
  fst (getChecksum (sample_config manifest_go)
         (serving DefaultClient (checksumTxt toolX) (ok_response checksums_toolX) calm)
         toolX empty_world)
  = match find (fun e => String.eqb (snd e) (srcBinName (sample_config manifest_go) toolX))
                toolX_entries with
    | Some e => fst e
    | None => ""
    end
  /\ (fst (getChecksum (sample_config manifest_go)
             (serving DefaultClient (checksumTxt toolX) (ok_response checksums_toolX) calm)
             toolX empty_world) = ""
      <-> Forall (fun e => snd e <> srcBinName (sample_config manifest_go) toolX)
            toolX_entries).
Proof.
  apply (getChecksum_listed_digest (sample_config manifest_go)
           (serving DefaultClient (checksumTxt toolX) (ok_response checksums_toolX) calm)
           toolX (ok_response checksums_toolX) toolX_entries empty_world);
    try reflexivity.
  repeat constructor; discriminate.
Defined.

(** ** [getLatestRelease]: the root, the redirect, and what is asked *)

Lemma string_drop_app s t : string_drop (String.length s) (s ++ t) = t.
Proof. induction s as [|c s IH]; [reflexivity | exact IH]. Qed.

Lemma string_take_app s t : string_take (String.length s) (s ++ t) = s.
Proof.
  induction s as [|c s IH]; [reflexivity|].
  change ((String c s ++ t)%string) with (String c (s ++ t)).
  cbn [String.length string_take]. rewrite IH. reflexivity.
Qed.

Lemma strings_TrimSuffix_app s suf : strings_TrimSuffix (s ++ suf) suf = s.
Proof.
  unfold strings_TrimSuffix, strings_HasSuffix.
  rewrite append_length.
  replace (String.length s + String.length suf - String.length suf)
    with (String.length s) by lia.
  rewrite string_drop_app, String.eqb_refl, string_take_app.
  replace (String.length suf <=? String.length s + String.length suf) with true
    by (symmetry; apply Nat.leb_le; lia).
  reflexivity.
Qed.

Lemma prefix_app p s : String.prefix p (p ++ s) = true.
Proof.
  induction p as [|c p IH]; [apply prefix_empty|].
  change ((String c p ++ s)%string) with (String c (p ++ s)). cbn [String.prefix].
  destruct (ascii_dec c c); [exact IH | congruence].
Qed.

Lemma strings_TrimPrefix_app p s : strings_TrimPrefix (p ++ s) p = s.
Proof.
  unfold strings_TrimPrefix, strings_HasPrefix.
  rewrite prefix_app. apply string_drop_app.
Qed.

Lemma HasPrefix_char c s ch :
  strings_HasPrefix (String c s) (String ch "") = true <-> ch = c.
Proof.
  unfold strings_HasPrefix. cbn [String.prefix].
  destruct (ascii_dec ch c) as [E|N].
  - rewrite prefix_empty. tauto.
  - split; [discriminate | contradiction].
Qed.

(** A piece in front of a one-byte separator is the first piece. *)
Lemma split_char_piece ch a rest :
  strings_Contains a (String ch "") = false ->
  split_from (String ch "") 0 (a ++ String ch rest)
  = a :: split_from (String ch "") 0 rest.
Proof.
  induction a as [|c a IH]; intros H.
  - change (("" ++ String ch rest)%string) with (String ch rest).
    cbn [split_from].
    assert (strings_HasPrefix (String ch rest) (String ch "") = true) as ->
      by (apply HasPrefix_char; reflexivity).
    reflexivity.
  - cbn [strings_Contains] in H. apply orb_false_iff in H as [Hp Hc].
    change ((String c a ++ String ch rest)%string) with (String c (a ++ String ch rest)).
    cbn [split_from].
    assert (strings_HasPrefix (String c (a ++ String ch rest)) (String ch "") = false) as ->.
    { destruct (strings_HasPrefix (String c (a ++ String ch rest)) (String ch "")) eqn:E;
        [|reflexivity].
      apply HasPrefix_char in E. subst ch.
      assert (strings_HasPrefix (String c a) (String c "") = true) as T
        by (apply HasPrefix_char; reflexivity).
      congruence. }
    rewrite (IH Hc). reflexivity.
Qed.

(** The parts of [github.com/<account>/<repo>]. *)
Lemma split_github_path acct rpo :
  strings_Contains acct "/" = false ->
  strings_Contains rpo "/" = false ->
  strings_Split ("github.com/" ++ acct ++ "/" ++ rpo) "/" = ["github.com"; acct; rpo].
Proof.
  intros Ha Hr.
  change (strings_Split ("github.com/" ++ acct ++ "/" ++ rpo) "/")
    with (split_from "/" 0 ("github.com" ++ String "/" (acct ++ String "/" rpo))).
  rewrite (split_char_piece "/" "github.com") by reflexivity.
  rewrite (split_char_piece "/" acct) by exact Ha.
  rewrite (split_from_absent "/" rpo Hr). reflexivity.
Qed.

Lemma Contains_app_sep a sep t : strings_Contains (a ++ sep ++ t) sep = true.
Proof.
  induction a as [|c a IH].
  - change (("" ++ sep ++ t)%string) with ((sep ++ t)%string).
    destruct (sep ++ t)%string eqn:E; cbn [strings_Contains];
      unfold strings_HasPrefix; rewrite <- E, prefix_app; reflexivity.
  - change ((String c a ++ sep ++ t)%string) with (String c (a ++ sep ++ t)).
    cbn [strings_Contains]. rewrite IH. apply orb_true_r.
Qed.

Lemma last_push_byte c l d : 2 <= length l -> List.last (push_byte c l) d = List.last l d.
Proof. destruct l as [|a [|b l]]; cbn [length]; [lia | lia | reflexivity]. Qed.

Lemma last_cons_nonempty {A} (x : A) l d : l <> [] -> List.last (x :: l) d = List.last l d.
Proof. destruct l; [congruence | reflexivity]. Qed.

(** The last piece of a path is what follows its last slash. *)
Lemma split_last_segment base seg :
  strings_Contains seg "/" = false ->
  List.last (strings_Split (base ++ "/" ++ seg) "/") "" = seg.
Proof.
  intros Hseg.
  change (strings_Split (base ++ "/" ++ seg) "/") with (split_from "/" 0 (base ++ "/" ++ seg)).
  induction base as [|c base IH].
  - change (("" ++ "/" ++ seg)%string) with (String "/" seg). cbn [split_from].
    assert (strings_HasPrefix (String "/" seg) "/" = true) as ->
      by (apply HasPrefix_char; reflexivity).
    cbn [String.length Nat.sub]. rewrite (split_from_absent "/" seg Hseg). reflexivity.
  - change ((String c base ++ "/" ++ seg)%string) with (String c (base ++ "/" ++ seg)).
    cbn [split_from].
    destruct (strings_HasPrefix (String c (base ++ "/" ++ seg)) "/").
    + cbn [String.length Nat.sub].
      rewrite last_cons_nonempty by apply split_from_nonempty. exact IH.
    + rewrite last_push_byte; [exact IH|].
      apply split_from_two; [discriminate | apply Contains_app_sep].
Qed.

Lemma github_root_parts acct rpo root :
  root = ("https://github.com/" ++ acct ++ "/" ++ rpo ++ ".git")%string
  \/ (root = ("https://github.com/" ++ acct ++ "/" ++ rpo)%string
      /\ strings_HasSuffix root ".git" = false) ->
  strings_Contains acct "/" = false ->
  strings_Contains rpo "/" = false ->
  strings_HasPrefix root "https://github.com/" = true
  /\ strings_Split (strings_TrimPrefix (strings_TrimSuffix root ".git") "https://") "/"
     = ["github.com"; acct; rpo].
Proof.
  intros Hroot Ha Hr.
  assert (strings_TrimSuffix root ".git"
          = ("https://" ++ ("github.com/" ++ acct ++ "/" ++ rpo))%string) as T.
  { destruct Hroot as [-> | [-> Hs]].
    - change ("https://github.com/" ++ acct ++ "/" ++ rpo ++ ".git")%string
        with ("https://github.com/" ++ (acct ++ "/" ++ (rpo ++ ".git")))%string.
      replace ("https://github.com/" ++ (acct ++ "/" ++ (rpo ++ ".git")))%string
        with (("https://github.com/" ++ acct ++ "/" ++ rpo) ++ ".git")%string.
      + apply strings_TrimSuffix_app.
      + rewrite !append_assoc. reflexivity.
    - unfold strings_TrimSuffix. rewrite Hs. reflexivity. }
  split.
  - destruct Hroot as [-> | [-> _]]; apply prefix_app.
  - rewrite T, strings_TrimPrefix_app. apply split_github_path; assumption.
Qed.

(** X4: for a root [https://github.com/<account>/<repo>], with or without
    the suffix [.git], account and repository holding no slash,
    [getLatestRelease] first asks the tag listing of that account and
    repository, and any release it resolves carries exactly these two. *)
Theorem getLatestRelease_parses_root (c : config) (o : outside) (tool : Tool)
    (rp : Repo) (acct rpo : string) (w : world) :
  SourceRepo (Source tool) = Some rp ->
  Root rp = ("https://github.com/" ++ acct ++ "/" ++ rpo ++ ".git")%string
  \/ (Root rp = ("https://github.com/" ++ acct ++ "/" ++ rpo)%string
      /\ strings_HasSuffix (Root rp) ".git" = false) ->
  strings_Contains acct "/" = false ->
  strings_Contains rpo "/" = false ->
  malformed o (tags_url acct rpo) = false ->
  head (since w (snd (getLatestRelease c o tool w)))
  = Some (HttpGet LastResponseClient (tags_url acct rpo))
  /\ (forall rel, fst (getLatestRelease c o tool w) = Some rel ->
        account rel = acct /\ repo rel = rpo).
Proof.
  intros HR Hroot Ha Hr Hm.
  destruct (github_root_parts acct rpo (Root rp) Hroot Ha Hr) as [HP HS].
  unfold getLatestRelease. rewrite HR, HP, HS. cbn [negb].
  unfold client_Get, http_NewRequest, client_Do. rewrite Hm.
  run_all; cbn [trace fs]; rewrite <- ?app_assoc; cbn [app]; rewrite since_app.
  all: split; [reflexivity|]; intros rel Hrel; try discriminate Hrel.
  all: injection Hrel as <-; split; reflexivity.
Qed.

Lemma getLatestRelease_parses_root_witness :
  head (since empty_world
          (snd (getLatestRelease (sample_config manifest_go) tags_then_redirect
                  (github_tool "https://github.com/acme/toolX.git" "c0ffee") empty_world)))
  = Some (HttpGet LastResponseClient (tags_url "acme" "toolX"))
  /\ (forall rel,
        fst (getLatestRelease (sample_config manifest_go) tags_then_redirect
               (github_tool "https://github.com/acme/toolX.git" "c0ffee") empty_world)
        = Some rel ->
        account rel = "acme" /\ repo rel = "toolX").
Proof.
  apply (getLatestRelease_parses_root (sample_config manifest_go) tags_then_redirect
           (github_tool "https://github.com/acme/toolX.git" "c0ffee")
           {| VCS := "git"; Root := "https://github.com/acme/toolX.git"; Revision := "c0ffee" |}
           "acme" "toolX" empty_world); try reflexivity.
  left. reflexivity.
Defined.

Lemma find_absent {A} (p : A -> bool) l :
  Forall (fun x => p x = false) l -> find p l = None.
Proof. induction 1 as [|x l Hx _ IH]; [reflexivity|]. cbn [find]. rewrite Hx. exact IH. Qed.

(** X5: when no listed tag has the requested revision and the
    latest-release endpoint answers 302 with a Location that parses as a
    URL, the release label is what follows the last slash of the Location
    (the empty label when the Location ends in a slash); when the Location
    does not parse, the request fails inside [net/http] and no release is
    resolved.  Either way the run consists of the two requests and no file
    is touched. *)
Theorem getLatestRelease_latest_segment (c : config) (o : outside) (tool : Tool)
    (rp : Repo) (host acct rpo : string) (resp latest : Response)
    (tags : list tag) (base seg : string) (w : world) :
  SourceRepo (Source tool) = Some rp ->
  strings_HasPrefix (Root rp) "https://github.com/" = true ->
  strings_Split (strings_TrimPrefix (strings_TrimSuffix (Root rp) ".git") "https://") "/"
  = [host; acct; rpo] ->
  malformed o (tags_url acct rpo) = false ->
  transport o LastResponseClient (tags_url acct rpo) = Some resp ->
  StatusCode resp = StatusOK ->
  json_Decode_tags c (Body resp) = Some tags ->
  Forall (fun t => Sha t <> Revision rp) tags ->
  malformed o (latest_url acct rpo) = false ->
  transport o LastResponseClient (latest_url acct rpo) = Some latest ->
  StatusCode latest = StatusFound ->
  Location latest = (base ++ "/" ++ seg)%string ->
  strings_Contains seg "/" = false ->
  getLatestRelease c o tool w
  = (if malformed o (Location latest) then None
     else Some {| account := acct; repo := rpo; label := seg |},
     World (fs w) (trace w ++ [HttpGet LastResponseClient (tags_url acct rpo);
                              HttpGet LastResponseClient (latest_url acct rpo)])
       (seen w)).
Proof.
  intros HR HP HS HM HT HC HD Hnone HM2 HT2 HC2 HL Hseg.
  assert (String.eqb (base ++ "/" ++ seg) "" = false) as Hloc.
  { apply String.eqb_neq. intros E. apply (f_equal String.length) in E.
    rewrite !append_length in E. cbn in E. lia. }
  unfold getLatestRelease. rewrite HR, HP, HS. cbn [negb].
  unfold client_Get, http_NewRequest, client_Do. rewrite HM, HM2. unfold_monad.
  rewrite HT, HC. change (redirects StatusOK) with false. cbn [andb].
  rewrite HC, Z.eqb_refl. cbn [negb]. rewrite HD.
  assert (find (fun t => String.eqb (Sha t) (Revision rp)) tags = None) as ->.
  { apply find_absent. eapply Forall_impl; [exact Hnone|].
    intros t Ht. apply String.eqb_neq. exact Ht. }
  cbn [trace fs seen]. rewrite HT2, HC2. change (redirects StatusFound) with true.
  rewrite HL, Hloc. cbn [negb andb].
  destruct (malformed o (base ++ "/" ++ seg)).
  - rewrite <- app_assoc. reflexivity.
  - rewrite HC2, Z.eqb_refl. cbn [negb]. rewrite HL, Hloc.
    rewrite split_last_segment by exact Hseg.
    rewrite <- app_assoc. reflexivity.
Qed.

Lemma getLatestRelease_latest_segment_witness :
  getLatestRelease (sample_config manifest_go) tags_then_redirect
    (github_tool "https://github.com/acme/toolX.git" "feedface") empty_world
  = (Some {| account := "acme"; repo := "toolX"; label := "v2.0.0" |},
     World (fs empty_world)
       (trace empty_world ++ [HttpGet LastResponseClient (tags_url "acme" "toolX");
                              HttpGet LastResponseClient (latest_url "acme" "toolX")])
       (seen empty_world)).
Proof.
  apply (getLatestRelease_latest_segment (sample_config manifest_go) tags_then_redirect
           (github_tool "https://github.com/acme/toolX.git" "feedface")
           {| VCS := "git"; Root := "https://github.com/acme/toolX.git";
              Revision := "feedface" |}
           "github.com" "acme" "toolX" (ok_response tag_listing)
           (redirect_to "https://github.com/acme/toolX/releases/tag/v2.0.0")
           [ {| Name := "v0.9.0"; Sha := "0badf00d" |};
             {| Name := "v1.0.0"; Sha := "c0ffee" |};
             {| Name := "v1.0.1"; Sha := "c0ffee" |} ]
           "https://github.com/acme/toolX/releases/tag" "v2.0.0" empty_world);
    try (vm_compute; reflexivity).
  repeat constructor; vm_compute; discriminate.
Defined.

(** A Location that [net/url] does not parse: the second request fails and
    no release is resolved. *)
Example getLatestRelease_unparsable_location :
  let loc := "https://github.com/acme/toolX/releases/tag/v1%zz" in
  let answers :=
    serving LastResponseClient (tags_url "acme" "toolX") (ok_response tag_listing)
      (serving LastResponseClient (latest_url "acme" "toolX") (redirect_to loc) calm) in
  let o := {| fault := fault answers; enoent := enoent answers; stalled := stalled answers;
              umask := umask answers;
              malformed := fun url => bool_decide (url = loc);
              transport := transport answers |} in
  getLatestRelease (sample_config manifest_go) o
    (github_tool "https://github.com/acme/toolX.git" "feedface") empty_world
  = (None,
     World ∅ [HttpGet LastResponseClient (tags_url "acme" "toolX");
              HttpGet LastResponseClient (latest_url "acme" "toolX")] []).
Proof. vm_compute. reflexivity. Qed.

(** X6: [getLatestRelease] only asks: it leaves every file as it was, sends
    at most two requests, all through the client that does not follow
    redirects, and resolves no release without having sent one. *)
Theorem getLatestRelease_only_asks (c : config) (o : outside) (tool : Tool) (w : world) :
  let '(rel, w') := getLatestRelease c o tool w in
  fs w' = fs w
  /\ length (since w w') <= 2
  /\ Forall (fun ev => exists url, ev = HttpGet LastResponseClient url) (since w w')
  /\ (rel <> None -> since w w' <> []).
Proof.
  unfold getLatestRelease, client_Get, http_NewRequest, client_Do.
  run_all; cbn [trace fs]; rewrite <- ?app_assoc; cbn [app];
    first [rewrite since_app | rewrite since_self].
  all: split; [reflexivity|]; split; [cbn [length]; lia|]; split;
    [repeat constructor; eexists; reflexivity | congruence].
Qed.

(** ** [downloadBin]: what a run leaves behind *)

(** A run of [downloadBin] that returns nil although closing the file did
    not fail: the payload, its digest, the file and the calls. *)
Lemma downloadBin_success_post c o checksum src url bin w :
  fault o (OpClose (filepath_Join c [src; "bin"; bin])) = None ->
  fst (downloadBin c o checksum src url bin w) = None ->
  exists resp,
    transport o DefaultClient url = Some resp
    /\ StatusCode resp = StatusOK
    /\ broken (Body resp) = false
    /\ sha256_hex (bytes (Body resp)) = checksum
    /\ fs (snd (downloadBin c o checksum src url bin w)) !! filepath_Join c [src; "bin"; bin]
       = Some (File (bytes (Body resp)) 493%N)
    /\ since w (snd (downloadBin c o checksum src url bin w))
       = [ HttpGet DefaultClient url;
           Sys (OpMkdirAll (filepath_Join c [src; "bin"]));
           Sys (OpCreate (filepath_Join c [src; "bin"; bin]));
           Sys (OpWrite (filepath_Join c [src; "bin"; bin]));
           Sys (OpClose (filepath_Join c [src; "bin"; bin]));
           Sys (OpChmod (filepath_Join c [src; "bin"; bin])) ].
Proof.
  intros Hclose.
  unfold downloadBin. unfold_monad. rewrite get_outcome.
  unfold os_MkdirAll, os_Create, io_Copy, os_Close, os_Chmod, sys_error.
  unfold_monad. rewrite Hclose.
  run_all; intros Hres; try discriminate Hres.
  all: eexists; split; [reflexivity|].
  all: cbn [trace fs]; rewrite <- ?app_assoc; cbn [app]; rewrite since_app.
  all: repeat match goal with
              | H : (_ =? _)%Z = true |- _ => apply Z.eqb_eq in H
              | H : negb (String.eqb _ _) = false |- _ =>
                  apply negb_false_iff, String.eqb_eq in H
              end.
  all: repeat split; try assumption; simplify_map_eq; reflexivity.
Qed.



(** X8: a run of [downloadBin] that reports a checksum mismatch names the
    digest of what it wrote and the expected checksum, which differ; the
    file is not removed - it stays at [src/bin/<bin>] with the mismatching
    payload - and [os.Chmod] is not called. *)
Theorem downloadBin_mismatch_keeps_file (c : config) (o : outside)
    (checksum src url bin got want : string) (w : world) :
  fst (downloadBin c o checksum src url bin w) = Some (ChecksumMismatch got want) ->
  want = checksum
  /\ got <> want
  /\ (exists data mode,
        fs (snd (downloadBin c o checksum src url bin w)) !! filepath_Join c [src; "bin"; bin]
        = Some (File data mode)
        /\ sha256_hex data = got)
  /\ (Sys (OpChmod (filepath_Join c [src; "bin"; bin]))
      ∉ since w (snd (downloadBin c o checksum src url bin w))).
Proof.
  unfold downloadBin. unfold_monad. rewrite get_outcome.
  unfold os_MkdirAll, os_Create, io_Copy, os_Close, os_Chmod, sys_error.
  unfold_monad.
  run_all; intros Hres; try discriminate Hres.
  all: injection Hres as <- <-.
  all: cbn [trace fs]; rewrite <- ?app_assoc; cbn [app]; rewrite since_app.
  all: match goal with
       | H : negb (String.eqb _ _) = true |- _ =>
           apply negb_true_iff, String.eqb_neq in H
       end.
  all: split; [reflexivity|]; split; [assumption|]; split.
  all: try (eexists; eexists; split; [simplify_map_eq; reflexivity | reflexivity]).
  all: intros Hin;
    repeat match goal with
           | H : _ ∈ [] |- _ => apply not_elem_of_nil in H; contradiction
           | H : _ ∈ _ :: _ |- _ =>
               apply elem_of_cons in H; destruct H as [H | H]; [discriminate H|]
           end.
Qed.

Lemma downloadBin_mismatch_keeps_file_witness :
  checksum_abc = checksum_abc
  /\ sha256_hex "hello" <> checksum_abc
  /\ (exists data mode,
        fs (snd (downloadBin (sample_config manifest_go) serves_hello checksum_abc "/tool"
                   (binURL (sample_config manifest_go) toolX) "gptscript-go-tool"
                   empty_world))
        !! filepath_Join (sample_config manifest_go) ["/tool"; "bin"; "gptscript-go-tool"]
        = Some (File data mode)
        /\ sha256_hex data = sha256_hex "hello")
  /\ (Sys (OpChmod (filepath_Join (sample_config manifest_go)
                      ["/tool"; "bin"; "gptscript-go-tool"]))
      ∉ since empty_world
          (snd (downloadBin (sample_config manifest_go) serves_hello checksum_abc "/tool"
                  (binURL (sample_config manifest_go) toolX) "gptscript-go-tool"
                  empty_world))).
Proof.
  apply (downloadBin_mismatch_keeps_file (sample_config manifest_go) serves_hello
           checksum_abc "/tool" (binURL (sample_config manifest_go) toolX)
           "gptscript-go-tool" (sha256_hex "hello") checksum_abc empty_world).
  vm_compute. reflexivity.
Defined.

(** ** The shape of a digest *)

Local Open Scope Z_scope.

Lemma hex_EncodeToString_length l :
  String.length (hex_EncodeToString l) = (2 * length l)%nat.
Proof. induction l as [|b l IH]; [reflexivity|]. cbn [hex_EncodeToString String.length length]. lia. Qed.

Lemma hex_digit_lower n : 0 <= n < 16 -> is_lower_hex (hex_digit n) = true.
Proof.
  intros H. rewrite <- (Z2Nat.id n) by lia.
  assert (Z.to_nat n < 16)%nat as Hk by lia.
  remember (Z.to_nat n) as k eqn:Ek. clear Ek H.
  do 16 (destruct k as [|k]; [reflexivity|]). lia.
Qed.

Lemma hex_EncodeToString_lower l :
  Forall (fun b => 0 <= b < 256) l ->
  all_bytes is_lower_hex (hex_EncodeToString l) = true.
Proof.
  induction 1 as [|b l Hb _ IH]; [reflexivity|].
  cbn [hex_EncodeToString all_bytes]. rewrite IH, !hex_digit_lower; [reflexivity| |].
  - change 15 with (Z.ones 4). rewrite Z.land_ones by lia.
    apply Z.mod_pos_bound. lia.
  - rewrite Z.shiftr_div_pow2 by lia. change (2 ^ 4) with 16.
    split; [apply Z.div_pos; lia | apply Z.div_lt_upper_bound; lia].
Qed.

Lemma be_bytes_length width x : length (be_bytes width x) = width.
Proof. unfold be_bytes. rewrite length_map, length_rev, length_seq. reflexivity. Qed.

Lemma be_bytes_range width x : Forall (fun b => 0 <= b < 256) (be_bytes width x).
Proof.
  unfold be_bytes. apply Forall_map. apply Forall_forall. intros i _. cbn beta.
  change 255 with (Z.ones 8). rewrite Z.land_ones by lia.
  apply Z.mod_pos_bound. lia.
Qed.

Lemma sha256_round_length st kw : length st = 8%nat -> length (sha256_round st kw) = 8%nat.
Proof.
  intros H. unfold sha256_round.
  destruct st as [|a [|b [|c0 [|d [|e [|f [|g [|h [|i st]]]]]]]]]; try discriminate H.
  reflexivity.
Qed.

Lemma sha256_rounds_length kws st :
  length st = 8%nat -> length (fold_left sha256_round kws st) = 8%nat.
Proof.
  revert st. induction kws as [|kw kws IH]; intros st H; [exact H|].
  cbn [fold_left]. apply IH. apply sha256_round_length. exact H.
Qed.

Lemma sha256_block_length h block :
  length h = 8%nat -> length (sha256_block h block) = 8%nat.
Proof.
  intros H. unfold sha256_block.
  rewrite length_map, length_combine, sha256_rounds_length by exact H. lia.
Qed.

Lemma sha256_blocks_length fuel h data :
  length h = 8%nat -> length (sha256_blocks fuel h data) = 8%nat.
Proof.
  revert h data. induction fuel as [|fuel IH]; intros h data H; [exact H|].
  cbn [sha256_blocks]. destruct data; [exact H|].
  apply IH. apply sha256_block_length. exact H.
Qed.

Lemma concat_be_bytes_length words :
  length (concat (map (be_bytes 4) words)) = (4 * length words)%nat.
Proof.
  induction words as [|x words IH]; [reflexivity|].
  cbn [map concat]. rewrite length_app, be_bytes_length, IH. cbn [length]. lia.
Qed.

Lemma concat_be_bytes_range words :
  Forall (fun b => 0 <= b < 256) (concat (map (be_bytes 4) words)).
Proof.
  induction words as [|x words IH]; [constructor|].
  cbn [map concat]. apply Forall_app. split; [apply be_bytes_range | exact IH].
Qed.

(** [hex.EncodeToString(digest.Sum(nil))] is 64 lower-case hex digits. *)
Lemma sha256_hex_shape s :
  String.length (sha256_hex s) = 64%nat /\ all_bytes is_lower_hex (sha256_hex s) = true.
Proof.
  unfold sha256_hex, sha256_Sum. split.
  - rewrite hex_EncodeToString_length, concat_be_bytes_length, sha256_blocks_length;
      reflexivity.
  - apply hex_EncodeToString_lower, concat_be_bytes_range.
Qed.

Local Close Scope Z_scope.

(** X9: the expected checksum is compared with the digest as a string,
    without folding case or trimming: when closing the file does not fail,
    [downloadBin] returns nil only for an expected checksum of exactly 64
    lower-case hexadecimal digits. *)
Theorem downloadBin_checksum_format (c : config) (o : outside)
    (checksum src url bin : string) (w : world) :
  fault o (OpClose (filepath_Join c [src; "bin"; bin])) = None ->
  fst (downloadBin c o checksum src url bin w) = None ->
  String.length checksum = 64 /\ all_bytes is_lower_hex checksum = true.
Proof.
  intros Hclose Hres.
  destruct (downloadBin_success_post c o checksum src url bin w Hclose Hres)
    as (resp & _ & _ & _ & <- & _).
  apply sha256_hex_shape.
Qed.

Lemma downloadBin_checksum_format_witness :
  String.length checksum_abc = 64 /\ all_bytes is_lower_hex checksum_abc = true.
Proof.
  apply (downloadBin_checksum_format (sample_config manifest_go) serves_abc checksum_abc
           "/tool" (binURL (sample_config manifest_go) toolX) "gptscript-go-tool"
           empty_world); vm_compute; reflexivity.
Defined.

(** The same payload with its checksum in upper case is refused. *)
Example downloadBin_upper_case_checksum :
  fst (downloadBin (sample_config manifest_go) serves_abc
         "BA7816BF8F01CFEA414140DE5DAE2223B00361A396177A9CB410FF61F20015AD"
         "/tool" (binURL (sample_config manifest_go) toolX) "gptscript-go-tool" empty_world)
  = Some (ChecksumMismatch checksum_abc
            "BA7816BF8F01CFEA414140DE5DAE2223B00361A396177A9CB410FF61F20015AD").
Proof. vm_compute. reflexivity. Qed.

(** ** [Binary]: what it touches and what it installs *)

Lemma getLatestRelease_fs c o tool w : fs (snd (getLatestRelease c o tool w)) = fs w.
Proof.
  unfold getLatestRelease, client_Get, http_NewRequest, client_Do.
  run_all; reflexivity.
Qed.

Lemma getChecksum_fs c o rel w : fs (snd (getChecksum c o rel w)) = fs w.
Proof.
  unfold getChecksum. unfold_monad. rewrite get_outcome.
  run_all; reflexivity.
Qed.

(** [downloadBin] changes nothing but [src/bin] and [src/bin/<bin>], and
    the parents of [src/bin] that [os.MkdirAll] makes. *)
Lemma downloadBin_frame c o checksum src url bin w p :
  p <> filepath_Join c [src; "bin"] ->
  p <> filepath_Join c [src; "bin"; bin] ->
  fs (snd (downloadBin c o checksum src url bin w)) !! p = fs w !! p
  \/ (p ∈ ancestors c (filepath_Join c [src; "bin"])
      /\ fs w !! p = None
      /\ fs (snd (downloadBin c o checksum src url bin w)) !! p = Some (Dir Bare)).
Proof.
  intros Hdir Hfile.
  unfold downloadBin. unfold_monad. rewrite get_outcome.
  unfold os_MkdirAll, os_Create, io_Copy, os_Close, os_Chmod, sys_error.
  run_all.
  all: try match goal with
       | H : make_dirs _ (_ :: ancestors _ _) = Some _ |- _ =>
           pose proof (make_dirs_frame _ _ _ _ _ p (fun _ Hin => Hin) H Hdir) as Hfr;
           clear H
       | H : make_dirs _ (drop ?k (ancestors ?cfg ?dir)) = Some _ |- _ =>
           pose proof (make_dirs_frame _ _ _ _ _ p (drop_ancestors cfg k dir) H Hdir) as Hfr;
           clear H
       end.
  all: simplify_map_eq; first [left; reflexivity | exact Hfr].
Qed.

(** After a run that returned nil the file exists. *)
Lemma downloadBin_nil_file c o checksum src url bin w :
  fst (downloadBin c o checksum src url bin w) = None ->
  exists data mode,
    fs (snd (downloadBin c o checksum src url bin w)) !! filepath_Join c [src; "bin"; bin]
    = Some (File data mode).
Proof.
  unfold downloadBin. unfold_monad. rewrite get_outcome.
  unfold os_MkdirAll, os_Create, io_Copy, os_Close, os_Chmod, sys_error.
  run_all; intros Hres; try discriminate Hres.
  all: eexists; eexists; simplify_map_eq; reflexivity.
Qed.

(** X10: [Binary] changes no path but the directory [toolSource/bin], the
    file [toolSource/bin/gptscript-go-tool] ([.exe] on windows) and the
    missing parents of [toolSource/bin], [toolSource] among them, which
    [os.MkdirAll] makes as empty directories; when it reports the binary as
    found, that file exists. *)
Theorem Binary_writes_only_the_binary (c : config) (o : outside) (r : Runtime)
    (tool : Tool) (toolSource : string) (env : list string) (w : world) :
  let dir := filepath_Join c [toolSource; "bin"] in
  let file := filepath_Join c [toolSource; "bin";
                               ("gptscript-go-tool" ++ exe_suffix c)%string] in
  let '(found, _, _, w') := Binary c o r tool toolSource env w in
  (forall p, p <> dir -> p <> file ->
     fs w' !! p = fs w !! p
     \/ (p ∈ ancestors c dir /\ fs w !! p = None /\ fs w' !! p = Some (Dir Bare)))
  /\ (found = true -> exists data mode, fs w' !! file = Some (File data mode)).
Proof.
  intros dir file. unfold Binary.
  destruct (IsGit (Source tool)); cbn [negb];
    [|split; [left; reflexivity | discriminate]].
  unfold_monad.
  pose proof (getLatestRelease_fs c o tool w) as F1.
  destruct (getLatestRelease c o tool w) as [[rel|] w1]; cbn [snd] in F1;
    [|split; [intros; left; rewrite F1; reflexivity | discriminate]].
  pose proof (getChecksum_fs c o rel w1) as F2.
  destruct (getChecksum c o rel w1) as [checksum w2]; cbn [snd] in F2.
  destruct (String.eqb checksum "");
    [split; [intros; left; rewrite F2, F1; reflexivity | discriminate]|].
  pose proof (downloadBin_frame c o checksum toolSource (binURL c rel)
                (targetBinName c rel) w2) as F3.
  pose proof (downloadBin_nil_file c o checksum toolSource (binURL c rel)
                (targetBinName c rel) w2) as F4.
  destruct (downloadBin c o checksum toolSource (binURL c rel) (targetBinName c rel) w2)
    as [[e|] w3]; cbn [fst snd] in F3, F4.
  - split; [|discriminate]. intros p Hd Hf.
    specialize (F3 p Hd Hf). rewrite F2, F1 in F3. exact F3.
  - split; [|intros _; exact (F4 eq_refl)].
    intros p Hd Hf. specialize (F3 p Hd Hf). rewrite F2, F1 in F3. exact F3.
Qed.



(** ** [getRuntime]: its calls and its errors *)



(** A not-exist error of the staging mkdir is returned as it is. *)
Example getRuntime_returns_not_exist :
  let target := "/data/golang/659213a737b297cf9c54779a" in
  let o := {| fault := fault (failing (OpMkdirAll (staging target)) EACCES calm);
              enoent := fun call => bool_decide (call = OpMkdirAll (staging target));
              stalled := fun _ => 1;
              umask := 18%N;
              malformed := fun _ => false;
              transport := fun _ _ => None |} in
  let '(res, w') := getRuntime (sample_config manifest_go) o go1_22_1 "/data" empty_world in
  res = Return (Err (ErrNotExist (staging target)))
  /\ fs w' !! "/data" = Some (Dir Bare)
  /\ fs w' !! "/data/golang" = None
  /\ fs w' !! target = None.
Proof. vm_compute. repeat split. Qed.

(** ** [Setup] and [BuildCredentialHelper] *)

Lemma stripGo_no_GO env :
  Forall (fun e => strings_HasPrefix e "GO" = false) (stripGo env).
Proof.
  unfold stripGo. rewrite stripGo_loop_filter. cbn [app].
  apply Forall_forall. intros e He. apply list_elem_of_filter in He as [He _]. exact He.
Qed.

Lemma stripGo_keeps env more e :
  e ∈ env -> strings_HasPrefix e "GO" = false -> e ∈ stripGo (env ++ more).
Proof.
  intros He Hp. unfold stripGo. rewrite stripGo_loop_filter. cbn [app].
  apply list_elem_of_filter. split; [exact Hp|]. apply elem_of_app. left. exact He.
Qed.

(** X12: [Setup] first provisions the toolchain and builds only when that
    returned a directory: then it runs exactly one command, [go build
    -buildvcs=false -o <artifact>] from that directory, in [toolSource], with
    an environment that holds no entry starting with [GO] and every other
    entry of the caller's; the error of the command is returned as it is, and
    on success the result is [AppendPath(env, binPath)], not stripped.  An
    error or a panic of [getRuntime] is passed on and no command is run. *)
Theorem Setup_builds_after_provisioning (c : config) (t : toolbox) (o : outside)
    (r : Runtime) (tool : Tool) (dataRoot toolSource : string) (env : list string)
    (h : host) :
  let '(res, h') := Setup c t o r tool dataRoot toolSource env h in
  let '(rt, w') := getRuntime c o r dataRoot (disk h) in
  disk h' = w'
  /\ match rt with
     | Return (Ok binPath) =>
         let cmd := {| CmdPath := filepath_Join c [binPath; "go"];
                       CmdArgs := ["build"; "-buildvcs=false"; "-o"; artifactName c];
                       CmdEnv := stripGo (env ++ AppendPath t env binPath);
                       CmdDir := toolSource |} in
         runs h' = runs h ++ [cmd]
         /\ Forall (fun e => strings_HasPrefix e "GO" = false) (CmdEnv cmd)
         /\ (forall e, e ∈ env -> strings_HasPrefix e "GO" = false -> e ∈ CmdEnv cmd)
         /\ res = match exec t cmd with
                  | Some err => Return (Err err)
                  | None => Return (Ok (AppendPath t env binPath))
                  end
     | Return (Err err) => runs h' = runs h /\ res = Return (Err err)
     | Panic p => runs h' = runs h /\ res = Panic p
     end.
Proof.
  unfold Setup, runBuild, artifact_args. unfold_build.
  destruct (getRuntime c o r dataRoot (disk h)) as [[[binPath|err]|p] w'];
    cbn [disk runs]; try (repeat split; reflexivity).
  destruct (exec t _) eqn:E; cbn [disk runs CmdEnv].
  all: split; [reflexivity|]; split; [reflexivity|]; split; [apply stripGo_no_GO|].
  all: split; [intros x Hx Hp; apply stripGo_keeps; assumption | reflexivity].
Qed.

(** X13: [BuildCredentialHelper] does nothing at all for the helper [file].
    For any other helper it provisions the toolchain and, when that returned
    a directory, runs one [go build] of [./<helper>/cmd/] in
    [RepoDir/<revision>], writing [BinDir/gptscript-credential-<helper>],
    with [.exe] appended exactly for the helper [wincred] (whatever the
    platform), in an environment without entries starting with [GO]; the
    error of the command, or of the provisioning, is the result. *)
Theorem BuildCredentialHelper_runs_one_build (c : config) (t : toolbox) (o : outside)
    (r : Runtime) (helperName : string) (dirs : CredentialHelperDirs)
    (dataRoot revision : string) (env : list string) (h : host) :
  (helperName = "file" ->
   BuildCredentialHelper c t o r helperName dirs dataRoot revision env h
   = (Return (Ok tt), h))
  /\ (helperName <> "file" ->
      let '(res, h') :=
        BuildCredentialHelper c t o r helperName dirs dataRoot revision env h in
      let '(rt, w') := getRuntime c o r dataRoot (disk h) in
      disk h' = w'
      /\ match rt with
         | Return (Ok binPath) =>
             exists cmd,
               runs h' = runs h ++ [cmd]
               /\ CmdPath cmd = filepath_Join c [binPath; "go"]
               /\ CmdArgs cmd
                  = ["build"; "-buildvcs=false"; "-o";
                     filepath_Join c
                       [BinDir dirs;
                        ("gptscript-credential-" ++ helperName
                         ++ (if String.eqb helperName "wincred" then ".exe" else ""))%string];
                     ("./" ++ helperName ++ "/cmd/")%string]
               /\ CmdDir cmd = filepath_Join c [RepoDir dirs; revision]
               /\ CmdEnv cmd = stripGo (env ++ AppendPath t env binPath)
               /\ Forall (fun e => strings_HasPrefix e "GO" = false) (CmdEnv cmd)
               /\ res = match exec t cmd with
                        | Some err => Return (Err err)
                        | None => Return (Ok tt)
                        end
         | Return (Err err) => runs h' = runs h /\ res = Return (Err err)
         | Panic p => runs h' = runs h /\ res = Panic p
         end).
Proof.
  unfold BuildCredentialHelper. split.
  - intros ->. reflexivity.
  - intros Hne. apply String.eqb_neq in Hne. rewrite Hne. unfold_build.
    destruct (getRuntime c o r dataRoot (disk h)) as [[[binPath|err]|p] w'];
      cbn [disk runs]; try (repeat split; reflexivity).
    destruct (exec t _) eqn:E; cbn [disk runs].
    all: split; [reflexivity|]; eexists; split; [reflexivity|].
    all: unfold helper_cmd in *; cbn [CmdPath CmdArgs CmdDir CmdEnv].
    all: repeat (split; [reflexivity|]).
    all: split; [apply stripGo_no_GO|]; rewrite E; reflexivity.
Qed.

(** From an empty cache: the toolchain is provisioned, then built with. *)
Example Setup_sample :
  let '(res, h') :=
    Setup (sample_config manifest_go) sample_toolbox calm go1_22_1
      (github_tool "https://github.com/acme/toolX.git" "c0ffee") "/data" "/tool"
      ["GOFLAGS=-mod=vendor"; "HOME=/root"] (Host empty_world []) in
  res = Return (Ok ["GOFLAGS=-mod=vendor"; "HOME=/root";
                    "PATH=/data/golang/659213a737b297cf9c54779a/go/bin"])
  /\ map CmdEnv (runs h')
     = [["HOME=/root"; "HOME=/root"; "PATH=/data/golang/659213a737b297cf9c54779a/go/bin"]]
  /\ downloads (trace (disk h')) = 1.
Proof. vm_compute. repeat split. Qed.
